(** * Telegram/Gemini relay bot (src/main.py): a shallow embedding

    The bot receives a chat message, turns it into a list of request parts,
    posts it to the completion endpoint with [call_gemini] and replies with
    the text it gets back.  The handlers are embedded as computations in a
    small writer/exception monad: the writer records what the handler does to
    the outside world (downloads, the HTTP POST, log lines, the reply), the
    exception part is Python's [raise]/[try ... except Exception].

    What the outside world answers (the bytes behind a file id, the pages
    PyPDF2 extracts, the HTTP response to a POST) is read from a [World]. *)

From Stdlib Require Import List String Ascii Strings.Byte ZArith NArith Lia Bool.
Import ListNotations.
Local Open Scope string_scope.
Set Warnings "-register-all".

(** ** Python values and exceptions *)

(** A subscript is a string key or an integer index. *)
Inductive key : Type :=
| KStr (s : string)
| KInt (i : Z).

(** The exceptions the modelled code can meet.  All of them are subclasses of
    Python's [Exception], so [except Exception] catches every one. *)
Inductive exn : Type :=
| KeyError (k : key)
| IndexError
| TypeError
| AttributeError
| HTTPError (status : Z)
| ConnectionError
| JSONDecodeError
| DownloadError
| PdfReadError.

(** What [resp.json()] can return: None, bool, int, float (as mantissa and
    binary exponent), str, list and dict.  A dict coming from JSON has string
    keys only, each once, and keeps insertion order. *)
Inductive value : Type :=
| JNull
| JBool (b : bool)
| JInt (n : Z)
| JFloat (m e : Z)
| JStr (s : string)
| JList (l : list value)
| JDict (d : list (string * value)).

Inductive result (A : Type) : Type :=
| OK (a : A)
| Raise (e : exn).
Arguments OK {A} a.
Arguments Raise {A} e.

Module Py.

(** [seq[i]] on a sequence of length [n]: a negative index counts from the
    end, anything outside [-n, n) is an IndexError. *)
Definition norm_index (n : nat) (i : Z) : option nat :=
  let j := if (i <? 0)%Z then (i + Z.of_nat n)%Z else i in
  if ((j <? 0) || (Z.of_nat n <=? j))%Z then None else Some (Z.to_nat j).

Definition list_getitem {A} (l : list A) (i : Z) : result A :=
  match norm_index (List.length l) i with
  | Some j =>
      match nth_error l j with
      | Some v => OK v
      | None => Raise IndexError
      end
  | None => Raise IndexError
  end.

Definition str_getitem (s : string) (i : Z) : result string :=
  match norm_index (String.length s) i with
  | Some j =>
      match String.get j s with
      | Some c => OK (String c EmptyString)
      | None => Raise IndexError
      end
  | None => Raise IndexError
  end.

Fixpoint dict_get (d : list (string * value)) (k : string) : option value :=
  match d with
  | [] => None
  | (k', v) :: d' => if String.eqb k' k then Some v else dict_get d' k
  end.

(** [v[k]] *)
Definition getitem (v : value) (k : key) : result value :=
  match v, k with
  | JDict d, KStr s =>
      match dict_get d s with
      | Some x => OK x
      | None => Raise (KeyError k)
      end
  | JDict _, KInt _ => Raise (KeyError k)
  | JList l, KInt i => list_getitem l i
  | JList _, KStr _ => Raise TypeError
  | JStr s, KInt i =>
      match str_getitem s i with
      | OK c => OK (JStr c)
      | Raise e => Raise e
      end
  | JStr _, KStr _ => Raise TypeError
  | (JNull | JBool _ | JInt _ | JFloat _ _), _ => Raise TypeError
  end.

(** [sep.join(l)] *)
Fixpoint join (sep : string) (l : list string) : string :=
  match l with
  | [] => ""
  | [s] => s
  | s :: l' => s ++ sep ++ join sep l'
  end.

(** [x or default] on an optional string: None and the empty string are
    both falsy. *)
Definition str_or (x : option string) (default : string) : string :=
  match x with
  | Some s => if String.eqb s "" then default else s
  | None => default
  end.

(** [f"{x}"] of an optional string. *)
Definition format (x : option string) : string :=
  match x with
  | Some s => s
  | None => "None"
  end.

(** The line feed of ["\n"]. *)
Definition LF : string := String (ascii_of_nat 10) EmptyString.

End Py.

(** ** Base64 (RFC 4648, the alphabet and padding of [base64.b64encode]) *)

Module Base64.

Definition alphabet : string :=
  "ABCDEFGHIJKLMNOPQRSTUVWXYZabcdefghijklmnopqrstuvwxyz0123456789+/".

Definition pad : ascii := "="%char.

(** The character of a 6-bit group. *)
Definition char_of (n : N) : ascii :=
  match String.get (N.to_nat n) alphabet with
  | Some c => c
  | None => pad
  end.

Fixpoint index_from (c : ascii) (s : string) (i : N) : option N :=
  match s with
  | EmptyString => None
  | String c' s' => if Ascii.eqb c' c then Some i else index_from c s' (N.succ i)
  end.

(** The 6-bit group of a character of the alphabet. *)
Definition index_of (c : ascii) : option N := index_from c alphabet 0%N.

Definition byte_of (n : N) : byte :=
  match Byte.of_N n with
  | Some b => b
  | None => x00
  end.

Local Open Scope N_scope.

(** 24 bits of input give four 6-bit groups; a last group of one or two
    bytes is completed with zero bits and padded with [=]. *)
Fixpoint encode (bs : list byte) : string :=
  match bs with
  | [] => EmptyString
  | [a] =>
      let a := Byte.to_N a in
      String (char_of (N.shiftr a 2))
     (String (char_of (N.shiftl (N.land a 3) 4))
     (String pad (String pad EmptyString)))
  | [a; b] =>
      let a := Byte.to_N a in
      let b := Byte.to_N b in
      String (char_of (N.shiftr a 2))
     (String (char_of (N.lor (N.shiftl (N.land a 3) 4) (N.shiftr b 4)))
     (String (char_of (N.shiftl (N.land b 15) 2))
     (String pad EmptyString)))
  | a :: b :: c :: rest =>
      let a := Byte.to_N a in
      let b := Byte.to_N b in
      let c := Byte.to_N c in
      String (char_of (N.shiftr a 2))
     (String (char_of (N.lor (N.shiftl (N.land a 3) 4) (N.shiftr b 4)))
     (String (char_of (N.lor (N.shiftl (N.land b 15) 2) (N.shiftr c 6)))
     (String (char_of (N.land c 63))
     (encode rest))))
  end.

Definition byte1 (s0 s1 : N) : byte :=
  byte_of (N.lor (N.shiftl s0 2) (N.shiftr s1 4)).
Definition byte2 (s1 s2 : N) : byte :=
  byte_of (N.lor (N.shiftl (N.land s1 15) 4) (N.shiftr s2 2)).
Definition byte3 (s2 s3 : N) : byte :=
  byte_of (N.lor (N.shiftl (N.land s2 3) 6) s3).

(** Strict decoding: the input is a sequence of four-character groups over
    the alphabet, only the last of which may end in [=] or [==]. *)
Fixpoint decode (s : string) : option (list byte) :=
  match s with
  | EmptyString => Some []
  | String c0 (String c1 (String c2 (String c3 rest))) =>
      match index_of c0, index_of c1 with
      | Some s0, Some s1 =>
          if Ascii.eqb c2 pad then
            if Ascii.eqb c3 pad then
              match rest with
              | EmptyString => Some [byte1 s0 s1]
              | _ => None
              end
            else None
          else
            match index_of c2 with
            | Some s2 =>
                if Ascii.eqb c3 pad then
                  match rest with
                  | EmptyString => Some [byte1 s0 s1; byte2 s1 s2]
                  | _ => None
                  end
                else
                  match index_of c3, decode rest with
                  | Some s3, Some bs =>
                      Some (byte1 s0 s1 :: byte2 s1 s2 :: byte3 s2 s3 :: bs)
                  | _, _ => None
                  end
            | None => None
            end
      | _, _ => None
      end
  | _ => None
  end.

End Base64.


(** ** The outside world and the effects of a handler *)

(** A [requests.Response], as far as [call_gemini] reads it: the status code
    and what [resp.json()] gives, [None] when the body is not JSON and
    [resp.json()] raises. *)
Record Response : Type := {
  status_code : Z;
  json_body : option value
}.

(** [requests.post] either raises (no connection, time-out, ...) or returns
    the response of the server. *)
Inductive PostOutcome : Type :=
| TransportError
| Responded (r : Response).

(** A [telegram.PhotoSize]: one rendition of a photo.  It has no MIME type. *)
Record PhotoSize : Type := {
  photo_file_id : string;
  width : Z;
  height : Z
}.

(** A [telegram.Document], [Audio], [Voice] or [Video], as far as the
    handlers read it. *)
Record Attachment : Type := {
  file_id : string;
  mime_type : option string
}.

(** [update.message], for an update that carries a message (an update that
    carries none, such as an edited message, has [update.message] equal to
    [None]; the handlers are modelled on the others).  [effective_attachment]
    is the property python-telegram-bot computes from the attachment fields
    of the message. *)
Record Message : Type := {
  text : option string;
  photo : list PhotoSize;
  document : option Attachment;
  effective_attachment : option Attachment;
  voice : option Attachment;
  video : option Attachment
}.

Record World : Type := {
  (** [get_file()] followed by the download of the whole file *)
  download : string -> result (list byte);
  (** [PyPDF2.PdfReader(bio).pages] with [extract_text()] of each page *)
  pdf_pages : list byte -> result (list (option string));
  (** the answer to a POST of this JSON body to [GEMINI_URL] *)
  http_post : value -> PostOutcome
}.

Inductive event : Type :=
| EvDownload (id : string)
| EvPost (url : string) (body : value)
| EvLog (msg : string) (e : exn)
| EvReply (reply : value).

(** A computation: the events it emitted, in order, and how it ended. *)
Definition M (A : Type) : Type := (list event * result A)%type.

Definition ret {A} (a : A) : M A := ([], OK a).

Definition raise {A} (e : exn) : M A := ([], Raise e).

Definition emit (ev : event) : M unit := ([ev], OK tt).

Definition lift {A} (r : result A) : M A := ([], r).

Definition bind {A B} (m : M A) (f : A -> M B) : M B :=
  match m with
  | (t, OK a) => let (t', r) := f a in ((t ++ t')%list, r)
  | (t, Raise e) => (t, Raise e)
  end.

(** [try: m except Exception as e: h e] *)
Definition try_except {A} (m : M A) (h : exn -> M A) : M A :=
  match m with
  | (t, OK a) => (t, OK a)
  | (t, Raise e) => let (t', r) := h e in ((t ++ t')%list, r)
  end.

Notation "x <- m ;; k" := (bind m (fun x => k))
  (at level 61, m at next level, right associativity).
Notation "m ;;; k" := (bind m (fun _ => k))
  (at level 61, right associativity).

Definition trace {A} (m : M A) : list event := fst m.
Definition outcome {A} (m : M A) : result A := snd m.

(** The bodies posted, the replies sent and the files downloaded, in order. *)
Definition posts (t : list event) : list value :=
  flat_map (fun ev => match ev with EvPost _ b => [b] | _ => [] end) t.

Definition replies (t : list event) : list value :=
  flat_map (fun ev => match ev with EvReply r => [r] | _ => [] end) t.

Definition downloads (t : list event) : list string :=
  flat_map (fun ev => match ev with EvDownload id => [id] | _ => [] end) t.

(** ** The completion client *)

Definition GEMINI_URL : string :=
  "https://generativelanguage.googleapis.com/v1beta/models/" ++
  "gemini-2.5-flash:generateContent".

Definition dict (d : list (string * value)) : value := JDict d.

(** [requests.post(GEMINI_URL, params=params, headers=headers, json=body)] *)
Definition requests_post (w : World) (body : value) : M Response :=
  emit (EvPost GEMINI_URL body) ;;;
  match http_post w body with
  | TransportError => raise ConnectionError
  | Responded r => ret r
  end.

(** [resp.raise_for_status()] of the requests library: an HTTPError for a
    client error (4xx) or a server error (5xx) status, nothing otherwise. *)
Definition is_error_status (status : Z) : bool :=
  ((400 <=? status) && (status <? 600))%Z.

Definition raise_for_status (resp : Response) : M unit :=
  if is_error_status (status_code resp)
  then raise (HTTPError (status_code resp))
  else ret tt.

(** [resp.json()] *)
Definition json (resp : Response) : M value :=
  match json_body resp with
  | Some v => ret v
  | None => raise JSONDecodeError
  end.

Definition bind_result {A B} (r : result A) (f : A -> result B) : result B :=
  match r with
  | OK a => f a
  | Raise e => Raise e
  end.

(** [data["candidates"][0]["content"]["parts"][0]["text"]] *)
Definition extract_text (data : value) : result value :=
  bind_result (Py.getitem data (KStr "candidates")) (fun v1 =>
  bind_result (Py.getitem v1 (KInt 0)) (fun v2 =>
  bind_result (Py.getitem v2 (KStr "content")) (fun v3 =>
  bind_result (Py.getitem v3 (KStr "parts")) (fun v4 =>
  bind_result (Py.getitem v4 (KInt 0)) (fun v5 =>
  Py.getitem v5 (KStr "text")))))).

Definition unexpected_response : string :=
  "Gemini returned an unexpected response.".

(** [{"contents": [{"parts": parts}]}] *)
Definition envelope (parts : list value) : value :=
  dict [("contents", JList [dict [("parts", JList parts)]])].

Definition call_gemini (w : World) (parts : list value) : M value :=
  let body := envelope parts in
  resp <- requests_post w body ;;
  raise_for_status resp ;;;
  data <- json resp ;;
  try_except
    (lift (extract_text data))
    (fun e =>
       emit (EvLog "Unexpected response format: " e) ;;;
       ret (JStr unexpected_response)).

(** ** The handlers *)

(** [await update.message.reply_text(reply)].  The event records the call
    and its argument.  Whether the platform then accepts the message is not
    modelled: the outcome of a handler is its outcome up to the delivery of
    the reply. *)
Definition reply_text (reply : value) : M unit := emit (EvReply reply).

Definition logger_error (msg : string) (e : exn) : M unit := emit (EvLog msg e).

(** [await x.get_file()] and the download of its content into memory *)
Definition fetch (w : World) (id : string) : M (list byte) :=
  emit (EvDownload id) ;;;
  lift (download w id).

(** [base64.b64encode(bio.getvalue()).decode('utf-8')]: the encoding is
    ASCII, so decoding it as UTF-8 gives the same characters. *)
Definition b64encode (bs : list byte) : string := Base64.encode bs.

Definition of_optional (x : option string) : value :=
  match x with
  | Some s => JStr s
  | None => JNull
  end.

(** The common tail of the five handlers:
    [try: reply = call_gemini(parts) except Exception as e: ...] and the
    reply. *)
Definition complete (w : World) (parts : list value) (log_msg err : string)
  : M value :=
  try_except
    (call_gemini w parts)
    (fun e => logger_error log_msg e ;;; ret (JStr err)).

Definition text_handler (w : World) (m : Message) : M unit :=
  let user_text := of_optional (text m) in
  let parts := [dict [("text", user_text)]] in
  reply <- complete w parts "Gemini error (text): " "Error contacting Gemini." ;;
  reply_text reply.

Definition media_part (kind mime b64 : string) : value :=
  dict [(kind, dict [("mimeType", JStr mime); ("data", JStr b64)])].

Definition photo_handler (w : World) (m : Message) : M unit :=
  p <- lift (Py.list_getitem (photo m) (-1)) ;;
  bytes <- fetch w (photo_file_id p) ;;
  let b64 := b64encode bytes in
  let parts := [
    dict [("text", JStr "Please analyze this image:")];
    media_part "image" "image/jpeg" b64
  ] in
  reply <- complete w parts "Gemini error (image): " "Error processing image." ;;
  reply_text reply.

Definition is_pdf (mime : option string) : bool :=
  match mime with
  | Some s => String.eqb s "application/pdf"
  | None => false
  end.

Definition pdf_prompt (pages : list (option string)) : string :=
  let text := Py.join Py.LF (map (fun page => Py.str_or page "") pages) in
  "Extracted text from PDF:" ++ Py.LF ++ text ++ Py.LF ++ Py.LF ++
  "Please summarize.".

Definition document_handler (w : World) (m : Message) : M unit :=
  match document m with
  | None => raise AttributeError
  | Some doc =>
      reply <-
        (if is_pdf (mime_type doc) then
           bytes <- fetch w (file_id doc) ;;
           pages <- lift (pdf_pages w bytes) ;;
           let prompt := pdf_prompt pages in
           let parts := [dict [("text", JStr prompt)]] in
           complete w parts "Gemini error (pdf): " "Error processing PDF."
         else
           ret (JStr ("Unsupported document type: " ++ Py.format (mime_type doc)))) ;;
      reply_text reply
  end.

(** [x or y] on two optional objects *)
Definition or_else {A} (x y : option A) : option A :=
  match x with
  | Some a => Some a
  | None => y
  end.

Definition audio_handler (w : World) (m : Message) : M unit :=
  match or_else (effective_attachment m) (voice m) with
  | None => raise AttributeError
  | Some audio =>
      bytes <- fetch w (file_id audio) ;;
      let b64 := b64encode bytes in
      let parts := [
        dict [("text", JStr "Please transcribe or analyze this audio:")];
        media_part "audio" (Py.str_or (mime_type audio) "audio/ogg") b64
      ] in
      reply <- complete w parts "Gemini error (audio): " "Error processing audio." ;;
      reply_text reply
  end.

Definition video_handler (w : World) (m : Message) : M unit :=
  match video m with
  | None => raise AttributeError
  | Some video =>
      bytes <- fetch w (file_id video) ;;
      let b64 := b64encode bytes in
      let parts := [
        dict [("text", JStr "Please analyze this video:")];
        media_part "video" "video/mp4" b64
      ] in
      reply <- complete w parts "Gemini error (video): " "Error processing video." ;;
      reply_text reply
  end.

(** The five message handlers registered by [main]. *)
Inductive Modality : Type := MText | MPhoto | MDocument | MAudio | MVideo.

Definition handler (h : Modality) : World -> Message -> M unit :=
  match h with
  | MText => text_handler
  | MPhoto => photo_handler
  | MDocument => document_handler
  | MAudio => audio_handler
  | MVideo => video_handler
  end.

(** The fixed reply of each handler when the completion call raises. *)
Definition error_reply (h : Modality) : string :=
  match h with
  | MText => "Error contacting Gemini."
  | MPhoto => "Error processing image."
  | MDocument => "Error processing PDF."
  | MAudio => "Error processing audio."
  | MVideo => "Error processing video."
  end.

(** ** The data model of the specification, read off the Python values *)

(** The response shape [{"candidates": [{"content": {"parts": [{"text": t}]}}]}]:
    the value [t] found under the first part of the first candidate, if the
    dicts and lists on the way are there. *)
Definition expected_text (data : value) : option value :=
  match data with
  | JDict d =>
      match Py.dict_get d "candidates" with
      | Some (JList (JDict cand :: _)) =>
          match Py.dict_get cand "content" with
          | Some (JDict content) =>
              match Py.dict_get content "parts" with
              | Some (JList (JDict part :: _)) => Py.dict_get part "text"
              | _ => None
              end
          | _ => None
          end
      | _ => None
      end
  | _ => None
  end.

(** The reply text of a response of the expected shape: the text field is
    there and is a string. *)
Definition expected_string (data : value) : option string :=
  match expected_text data with
  | Some (JStr s) => Some s
  | _ => None
  end.

Definition is_success_status (status : Z) : bool :=
  ((200 <=? status) && (status <? 300))%Z.

(** A size list in ascending order of a measure (pixels, bytes, ...). *)
Fixpoint ascending {A} (measure : A -> Z) (l : list A) : Prop :=
  match l with
  | [] => True
  | x :: l' =>
      match l' with
      | [] => True
      | y :: _ => (measure x <= measure y)%Z /\ ascending measure l'
      end
  end.

Definition resolution (p : PhotoSize) : Z := (width p * height p)%Z.

(** The media kind of the three handlers that send an attachment. *)
Definition media_kind (h : Modality) : option string :=
  match h with
  | MPhoto => Some "image"
  | MAudio => Some "audio"
  | MVideo => Some "video"
  | MText | MDocument => None
  end.

(** A failed completion call: [requests.post] raised, or
    [raise_for_status] did. *)
Definition http_failure (o : PostOutcome) : bool :=
  match o with
  | TransportError => true
  | Responded r => is_error_status (status_code r)
  end.

(** The specification's wording of the same: no response, or a response
    whose status is not 2xx. *)
Definition no_2xx_response (o : PostOutcome) : bool :=
  match o with
  | TransportError => true
  | Responded r => negb (is_success_status (status_code r))
  end.

(** The log line of each handler when the completion call raises. *)
Definition error_log (h : Modality) : string :=
  match h with
  | MText => "Gemini error (text): "
  | MPhoto => "Gemini error (image): "
  | MDocument => "Gemini error (pdf): "
  | MAudio => "Gemini error (audio): "
  | MVideo => "Gemini error (video): "
  end.

(** What a handler does once it has its parts: after the events [pre] of its
    preparation, the POST, maybe log lines, then the one reply. *)
Definition completes (w : World) (h : Modality) (run : M unit)
  (pre : list event) (parts : list value) (logs : list event) (v : value) : Prop :=
  run = ((pre ++ EvPost GEMINI_URL (envelope parts) :: logs ++ [EvReply v])%list, OK tt) /\
  complete w parts (error_log h) (error_reply h) =
    (EvPost GEMINI_URL (envelope parts) :: logs, OK v) /\
  posts pre = [] /\ replies pre = [] /\
  posts logs = [] /\ replies logs = [] /\ downloads logs = [].

(** ** Sample inputs *)

Definition reply_body (t : value) : value :=
  dict [("candidates",
         JList [dict [("content", dict [("parts", JList [dict [("text", t)]])])]])].

(** A world that answers every download, PDF read and POST the same way. *)
Definition constant_world (bytes : list byte) (pages : list (option string))
  (answer : PostOutcome) : World :=
  {| download := fun _ => OK bytes;
     pdf_pages := fun _ => OK pages;
     http_post := fun _ => answer |}.

Definition answer (status : Z) (body : option value) : PostOutcome :=
  Responded {| status_code := status; json_body := body |}.

Definition empty_message : Message :=
  {| text := None; photo := []; document := None;
     effective_attachment := None; voice := None; video := None |}.

Definition text_message (body : string) : Message :=
  {| text := Some body; photo := []; document := None;
     effective_attachment := None; voice := None; video := None |}.

Definition photo_message (sizes : list PhotoSize) : Message :=
  {| text := None; photo := sizes; document := None;
     effective_attachment := None; voice := None; video := None |}.

Definition document_message (doc : Attachment) : Message :=
  {| text := None; photo := []; document := Some doc;
     effective_attachment := Some doc; voice := None; video := None |}.

Definition voice_message (v : Attachment) : Message :=
  {| text := None; photo := []; document := None;
     effective_attachment := Some v; voice := Some v; video := None |}.

Definition video_message (v : Attachment) : Message :=
  {| text := None; photo := []; document := None;
     effective_attachment := Some v; voice := None; video := Some v |}.

Definition sample_message (h : Modality) : Message :=
  match h with
  | MText => text_message "hello"
  | MPhoto => photo_message [{| photo_file_id := "p"; width := 90; height := 60 |}]
  | MDocument =>
      document_message {| file_id := "d"; mime_type := Some "application/pdf" |}
  | MAudio => voice_message {| file_id := "a"; mime_type := Some "audio/mpeg" |}
  | MVideo => video_message {| file_id := "v"; mime_type := Some "video/mp4" |}
  end.

(** The bytes of "Man". *)
Definition sample_bytes : list byte := [x4d; x61; x6e].

(** ** The start command and what [main] registers *)

Definition greeting : string :=
  "Hello! I am your multimodal Gemini 2.5-flash bot." ++ Py.LF ++
  "Send text, images, audio, video, or PDFs.".

Definition start_command (w : World) (m : Message) : M unit :=
  reply_text (JStr greeting).

(** The handlers [main] adds to the application: the command handler of
    [/start] and the five message handlers. *)
Inductive Registered : Type :=
| RStart
| RMessage (h : Modality).

Definition registered (r : Registered) : World -> Message -> M unit :=
  match r with
  | RStart => start_command
  | RMessage h => handler h
  end.

(** The message has nothing where the handler looks for its attachment. *)
Definition lacks_attachment (h : Modality) (m : Message) : bool :=
  match h with
  | MText => false
  | MPhoto => match photo m with [] => true | _ => false end
  | MDocument => match document m with None => true | Some _ => false end
  | MAudio =>
      match or_else (effective_attachment m) (voice m) with
      | None => true
      | Some _ => false
      end
  | MVideo => match video m with None => true | Some _ => false end
  end.

(** What Python raises there: [photo[-1]] on an empty tuple, an attribute of
    [None] otherwise. *)
Definition missing_attachment_error (h : Modality) : exn :=
  match h with
  | MPhoto => IndexError
  | _ => AttributeError
  end.

(** The exception of a failed completion call. *)
Definition failure_error (o : PostOutcome) : exn :=
  match o with
  | TransportError => ConnectionError
  | Responded r => HTTPError (status_code r)
  end.

(** A character of the base64 alphabet, or the padding character. *)
Definition is_b64_char (c : ascii) : bool :=
  existsb (Ascii.eqb c) (list_ascii_of_string Base64.alphabet) ||
  Ascii.eqb c Base64.pad.

(** ** Bounded checks, used to settle facts about bytes by evaluation *)

(** [below k p]: [p] holds of 0, 1, ..., k-1. *)
Fixpoint below (k : nat) (p : N -> bool) : bool :=
  match k with
  | O => true
  | S k' => p (N.of_nat k') && below k' p
  end.

(** The four 6-bit groups of three bytes, as [Base64.encode] cuts them. *)
Definition sextet0 (a : N) : N := N.shiftr a 2.
Definition sextet1 (a b : N) : N := N.lor (N.shiftl (N.land a 3) 4) (N.shiftr b 4).
Definition sextet2 (b c : N) : N := N.lor (N.shiftl (N.land b 15) 2) (N.shiftr c 6).
Definition sextet3 (c : N) : N := N.land c 63.

(** * Theorems *)

Module Base64Facts.
Import Base64.
Local Open Scope N_scope.

Lemma below_spec (k : nat) (p : N -> bool) :
  below k p = true -> forall n, n < N.of_nat k -> p n = true.
Proof.
  induction k as [|k IH]; simpl; intros H n Hn.
  - lia.
  - apply andb_true_iff in H as [Hk Hrest].
    destruct (N.eq_dec n (N.of_nat k)) as [->|Hne]; [exact Hk|].
    apply IH; [exact Hrest|lia].
Qed.

Lemma below2_spec (k : nat) (p : N -> N -> bool) :
  below k (fun a => below k (p a)) = true ->
  forall a b, a < N.of_nat k -> b < N.of_nat k -> p a b = true.
Proof.
  intros H a b Ha Hb.
  apply (below_spec k (p a)); [|exact Hb].
  apply (below_spec k (fun a => below k (p a))); assumption.
Qed.

Lemma to_N_lt (b : byte) : Byte.to_N b < N.of_nat 256.
Proof. pose proof (Byte.to_N_bounded b). lia. Qed.

Lemma byte_of_to_N (b : byte) : byte_of (Byte.to_N b) = b.
Proof. unfold byte_of. now rewrite Byte.of_to_N. Qed.

(** Every 6-bit group is sent to a character of the alphabet that is not the
    padding character and that [index_of] sends back to the group. *)
Lemma index_of_char_of (n : N) :
  n < 64 -> index_of (char_of n) = Some n /\ Ascii.eqb (char_of n) pad = false.
Proof.
  intros Hn.
  assert (H : below 64 (fun n =>
            match index_of (char_of n) with
            | Some m => N.eqb m n
            | None => false
            end && negb (Ascii.eqb (char_of n) pad)) = true)
    by (vm_compute; reflexivity).
  apply below_spec with (n := n) in H; [|exact Hn].
  apply andb_true_iff in H as [H1 H2].
  destruct (index_of (char_of n)) as [m|]; [|discriminate].
  apply N.eqb_eq in H1. subst m.
  split; [reflexivity|]. now apply negb_true_iff.
Qed.

Lemma sextets_lt (a b : N) :
  a < 256 -> b < 256 ->
  sextet0 a < 64 /\ sextet1 a b < 64 /\ sextet2 a b < 64 /\ sextet3 a < 64 /\
  N.shiftl (N.land a 3) 4 < 64 /\ N.shiftl (N.land a 15) 2 < 64.
Proof.
  intros Ha Hb.
  assert (H : below 256 (fun a => below 256 (fun b =>
            (sextet0 a <? 64) && (sextet1 a b <? 64) && (sextet2 a b <? 64) &&
            (sextet3 a <? 64) && (N.shiftl (N.land a 3) 4 <? 64) &&
            (N.shiftl (N.land a 15) 2 <? 64))) = true)
    by (vm_compute; reflexivity).
  apply below2_spec with (a := a) (b := b) in H; [|exact Ha|exact Hb].
  repeat (apply andb_true_iff in H as [H ?]).
  repeat split; now apply N.ltb_lt.
Qed.

(** Putting the groups back together gives the bytes. *)
Lemma regroup (a b : N) :
  a < 256 -> b < 256 ->
  N.lor (N.shiftl (sextet0 a) 2) (N.shiftr (sextet1 a b) 4) = a /\
  N.land (sextet1 a b) 15 = N.shiftr b 4 /\
  N.shiftr (sextet2 a b) 2 = N.land a 15 /\
  N.lor (N.shiftl (N.shiftr a 4) 4) (N.land a 15) = a /\
  N.lor (N.shiftl (N.land (sextet2 a b) 3) 6) (sextet3 b) = b /\
  N.lor (N.shiftl (sextet0 a) 2) (N.shiftr (N.shiftl (N.land a 3) 4) 4) = a /\
  N.shiftr (N.shiftl (N.land a 15) 2) 2 = N.land a 15.
Proof.
  intros Ha Hb.
  assert (H : below 256 (fun a => below 256 (fun b =>
            (N.lor (N.shiftl (sextet0 a) 2) (N.shiftr (sextet1 a b) 4) =? a) &&
            (N.land (sextet1 a b) 15 =? N.shiftr b 4) &&
            (N.shiftr (sextet2 a b) 2 =? N.land a 15) &&
            (N.lor (N.shiftl (N.shiftr a 4) 4) (N.land a 15) =? a) &&
            (N.lor (N.shiftl (N.land (sextet2 a b) 3) 6) (sextet3 b) =? b) &&
            (N.lor (N.shiftl (sextet0 a) 2)
                   (N.shiftr (N.shiftl (N.land a 3) 4) 4) =? a) &&
            (N.shiftr (N.shiftl (N.land a 15) 2) 2 =? N.land a 15))) = true)
    by (vm_compute; reflexivity).
  apply below2_spec with (a := a) (b := b) in H; [|exact Ha|exact Hb].
  repeat (apply andb_true_iff in H as [H ?]).
  repeat split; now apply N.eqb_eq.
Qed.

(** Induction on a list three elements at a time. *)
Lemma list_ind3 {A} (P : list A -> Prop) :
  P [] -> (forall a, P [a]) -> (forall a b, P [a; b]) ->
  (forall a b c l, P l -> P (a :: b :: c :: l)) ->
  forall l, P l.
Proof.
  intros H0 H1 H2 H3 l.
  enough (P l /\ (forall a, P (a :: l)) /\ (forall a b, P (a :: b :: l)))
    by tauto.
  induction l as [|x l (IH0 & IH1 & IH2)].
  - auto.
  - repeat split; auto.
Qed.

Lemma decode_group (a b c : byte) (rest : list byte) :
  decode (encode rest) = Some rest ->
  decode (encode (a :: b :: c :: rest)) = Some (a :: b :: c :: rest).
Proof.
  intros IH.
  pose proof (to_N_lt a) as Ha. pose proof (to_N_lt b) as Hb.
  pose proof (to_N_lt c) as Hc.
  change (encode (a :: b :: c :: rest)) with
    (String (char_of (sextet0 (Byte.to_N a)))
    (String (char_of (sextet1 (Byte.to_N a) (Byte.to_N b)))
    (String (char_of (sextet2 (Byte.to_N b) (Byte.to_N c)))
    (String (char_of (sextet3 (Byte.to_N c))) (encode rest))))).
  destruct (sextets_lt _ _ Ha Hb) as (L0 & L1 & _).
  destruct (sextets_lt _ _ Hb Hc) as (_ & _ & L2 & _).
  destruct (sextets_lt _ _ Hc Hc) as (_ & _ & _ & L3 & _).
  destruct (index_of_char_of _ L0) as [I0 _].
  destruct (index_of_char_of _ L1) as [I1 _].
  destruct (index_of_char_of _ L2) as [I2 P2].
  destruct (index_of_char_of _ L3) as [I3 P3].
  cbn [decode]. rewrite I0, I1, P2, I2, P3, I3, IH.
  destruct (regroup _ _ Ha Hb) as (R1 & R2 & _).
  destruct (regroup _ _ Hb Hc) as (_ & _ & R3 & R4 & R5 & _).
  unfold byte1, byte2, byte3.
  rewrite R1, R2, R3, R4, R5, !byte_of_to_N. reflexivity.
Qed.

Lemma decode_last1 (a : byte) : decode (encode [a]) = Some [a].
Proof.
  pose proof (to_N_lt a) as Ha.
  change (encode [a]) with
    (String (char_of (sextet0 (Byte.to_N a)))
    (String (char_of (N.shiftl (N.land (Byte.to_N a) 3) 4))
    (String pad (String pad EmptyString)))).
  destruct (sextets_lt _ _ Ha Ha) as (L0 & _ & _ & _ & L1 & _).
  destruct (index_of_char_of _ L0) as [I0 _].
  destruct (index_of_char_of _ L1) as [I1 _].
  cbn [decode]. rewrite I0, I1, Ascii.eqb_refl.
  destruct (regroup _ _ Ha Ha) as (_ & _ & _ & _ & _ & R6 & _).
  unfold byte1. rewrite R6, byte_of_to_N. reflexivity.
Qed.

Lemma decode_last2 (a b : byte) : decode (encode [a; b]) = Some [a; b].
Proof.
  pose proof (to_N_lt a) as Ha. pose proof (to_N_lt b) as Hb.
  change (encode [a; b]) with
    (String (char_of (sextet0 (Byte.to_N a)))
    (String (char_of (sextet1 (Byte.to_N a) (Byte.to_N b)))
    (String (char_of (N.shiftl (N.land (Byte.to_N b) 15) 2))
    (String pad EmptyString)))).
  destruct (sextets_lt _ _ Ha Hb) as (L0 & L1 & _).
  destruct (sextets_lt _ _ Hb Hb) as (_ & _ & _ & _ & _ & L2).
  destruct (index_of_char_of _ L0) as [I0 _].
  destruct (index_of_char_of _ L1) as [I1 _].
  destruct (index_of_char_of _ L2) as [I2 P2].
  cbn [decode]. rewrite I0, I1, P2, I2, Ascii.eqb_refl.
  destruct (regroup _ _ Ha Hb) as (R1 & R2 & _).
  destruct (regroup _ _ Hb Hb) as (_ & _ & _ & R4 & _ & _ & R7).
  unfold byte1, byte2. rewrite R1, R2, R7, R4, !byte_of_to_N. reflexivity.
Qed.

(** Decoding what [encode] produced gives the bytes back. *)
Lemma decode_encode (bs : list byte) : decode (encode bs) = Some bs.
Proof.
  induction bs as [|a|a b|a b c rest IH] using list_ind3.
  - reflexivity.
  - apply decode_last1.
  - apply decode_last2.
  - now apply decode_group.
Qed.

End Base64Facts.

(** ** Python subscripts *)

Lemma list_getitem_0 {A} (l : list A) :
  Py.list_getitem l 0 = match l with x :: _ => OK x | [] => Raise IndexError end.
Proof. destruct l; reflexivity. Qed.

Lemma list_getitem_last {A} (l : list A) (d : A) :
  l <> [] -> Py.list_getitem l (-1) = OK (last l d).
Proof.
  intros Hl.
  destruct (exists_last Hl) as (l' & a & ->).
  rewrite last_last.
  unfold Py.list_getitem, Py.norm_index.
  rewrite length_app. cbn [List.length].
  replace (-1 <? 0)%Z with true by reflexivity.
  destruct (_ || _)%bool eqn:E.
  - apply orb_true_iff in E as [E|E]; [apply Z.ltb_lt in E|apply Z.leb_le in E]; lia.
  - replace (Z.to_nat (-1 + Z.of_nat (List.length l' + 1))) with (List.length l' + 0)%nat
      by lia.
    rewrite nth_error_app2 by lia.
    replace (List.length l' + 0 - List.length l')%nat with 0%nat by lia.
    reflexivity.
Qed.

(** A subscript by a string succeeds on a dict that has the key and on
    nothing else. *)
Lemma getitem_str (v : value) (k : string) (x : value) :
  Py.getitem v (KStr k) = OK x ->
  exists d, v = JDict d /\ Py.dict_get d k = Some x.
Proof.
  destruct v; cbn; try discriminate.
  intros H. exists d. destruct (Py.dict_get d k); [|discriminate].
  now inversion H.
Qed.

(** [v[0]] followed by a subscript by a string succeeds only when [v] is a
    list whose first element is a dict with the key. *)
Lemma getitem_0_str (v : value) (k : string) (x : value) :
  bind_result (Py.getitem v (KInt 0)) (fun y => Py.getitem y (KStr k)) = OK x ->
  exists d rest, v = JList (JDict d :: rest) /\ Py.dict_get d k = Some x.
Proof.
  destruct v; cbn -[Py.list_getitem Py.str_getitem]; try discriminate.
  - destruct (Py.str_getitem s 0); cbn; discriminate.
  - rewrite list_getitem_0. destruct l as [|y rest]; cbn; [discriminate|].
    intros H. apply getitem_str in H as (d & -> & Hd). now exists d, rest.
Qed.

Lemma bind_result_OK {A B} (r : result A) (f : A -> result B) (b : B) :
  bind_result r f = OK b -> exists a, r = OK a /\ f a = OK b.
Proof. destruct r; cbn; [eauto|discriminate]. Qed.

(** ** The completion client *)

Lemma extract_text_sound (data v : value) :
  extract_text data = OK v -> expected_text data = Some v.
Proof.
  unfold extract_text. intros H.
  apply bind_result_OK in H as (v1 & H1 & H).
  apply getitem_str in H1 as (d & -> & Hd).
  apply bind_result_OK in H as (v2 & H2 & H).
  apply bind_result_OK in H as (v3 & H3 & H).
  assert (H23 : bind_result (Py.getitem v1 (KInt 0))
                  (fun y => Py.getitem y (KStr "content")) = OK v3)
    by (rewrite H2; exact H3).
  apply getitem_0_str in H23 as (cand & rest & -> & Hcand).
  apply bind_result_OK in H as (v4 & H4 & H).
  apply getitem_str in H4 as (content & -> & Hcontent).
  apply getitem_0_str in H as (part & rest' & -> & Hpart).
  cbn. rewrite Hd, Hcand, Hcontent. exact Hpart.
Qed.

Lemma extract_text_complete (data v : value) :
  expected_text data = Some v -> extract_text data = OK v.
Proof.
  unfold expected_text, extract_text. intros H.
  destruct data as [| | | | |?|d]; try discriminate.
  cbn [Py.getitem].
  destruct (Py.dict_get d "candidates") as [[| | | | |[|[| | | | |?|cand] ?]|?]|];
    try discriminate.
  cbn [bind_result Py.getitem]. rewrite list_getitem_0. cbn [bind_result Py.getitem].
  destruct (Py.dict_get cand "content") as [[| | | | |?|content]|]; try discriminate.
  cbn [bind_result Py.getitem].
  destruct (Py.dict_get content "parts") as [[| | | | |[|[| | | | |?|part] ?]|?]|];
    try discriminate.
  cbn [bind_result Py.getitem]. rewrite list_getitem_0. cbn [bind_result Py.getitem].
  now rewrite H.
Qed.

Lemma extract_text_raises (data : value) :
  expected_text data = None -> exists e, extract_text data = Raise e.
Proof.
  intros H. destruct (extract_text data) as [v|e] eqn:E; [|now exists e].
  apply extract_text_sound in E. congruence.
Qed.

(** [call_gemini], case by case. *)
Lemma call_gemini_eq (w : World) (parts : list value) :
  call_gemini w parts =
  let post := EvPost GEMINI_URL (envelope parts) in
  match http_post w (envelope parts) with
  | TransportError => ([post], Raise ConnectionError)
  | Responded r =>
      if is_error_status (status_code r)
      then ([post], Raise (HTTPError (status_code r)))
      else
        match json_body r with
        | None => ([post], Raise JSONDecodeError)
        | Some data =>
            match extract_text data with
            | OK v => ([post], OK v)
            | Raise e =>
                ([post; EvLog "Unexpected response format: " e],
                 OK (JStr unexpected_response))
            end
        end
  end.
Proof.
  unfold call_gemini, requests_post, raise_for_status, json.
  destruct (http_post w (envelope parts)) as [|r]; [reflexivity|].
  cbn. destruct (is_error_status (status_code r)); [reflexivity|].
  cbn. destruct (json_body r) as [data|]; [|reflexivity].
  cbn. destruct (extract_text data); reflexivity.
Qed.

Lemma success_not_error (status : Z) :
  is_success_status status = true -> is_error_status status = false.
Proof.
  unfold is_success_status, is_error_status. intros H.
  apply andb_true_iff in H as [H1 H2].
  apply Z.leb_le in H1. apply Z.ltb_lt in H2.
  apply andb_false_iff. left. apply Z.leb_gt. lia.
Qed.

(** Claim C10. A 2xx response whose body is not JSON: [call_gemini]
    raises the decoding error of [resp.json()] to its caller.  Nothing is
    logged and the fixed fallback string is not returned: the [try] block
    starts after the body has been parsed. *)
Theorem call_gemini_raises_on_non_json_body
  (w : World) (parts : list value) (r : Response) :
  http_post w (envelope parts) = Responded r ->
  is_success_status (status_code r) = true ->
  json_body r = None ->
  call_gemini w parts =
    ([EvPost GEMINI_URL (envelope parts)], Raise JSONDecodeError).
Proof.
  intros Hpost Hstatus Hbody.
  rewrite call_gemini_eq. cbv zeta.
  now rewrite Hpost, (success_not_error _ Hstatus), Hbody.
Qed.

Lemma call_gemini_raises_on_non_json_body_witness :
  call_gemini (constant_world [] [] (answer 200 None)) [dict [("text", JStr "hi")]] =
    ([EvPost GEMINI_URL (envelope [dict [("text", JStr "hi")]])],
     Raise JSONDecodeError).
Proof.
  apply (call_gemini_raises_on_non_json_body
           (constant_world [] [] (answer 200 None))
           [dict [("text", JStr "hi")]]
           {| status_code := 200; json_body := None |});
    reflexivity.
Defined.

(** Claim C2, as the code has it.  A 2xx response whose body is JSON
    in which no value can be reached under
    [["candidates"][0]["content"]["parts"][0]["text"]] (a key is absent, a list
    is empty, or a value on the way is not the dict or list expected):
    [call_gemini] logs the exception of the failed subscript and returns the
    fixed string; it raises nothing. *)
Theorem call_gemini_fallback_on_missing_fields
  (w : World) (parts : list value) (r : Response) (data : value) :
  http_post w (envelope parts) = Responded r ->
  is_success_status (status_code r) = true ->
  json_body r = Some data ->
  expected_text data = None ->
  exists e,
    call_gemini w parts =
      ([EvPost GEMINI_URL (envelope parts);
        EvLog "Unexpected response format: " e],
       OK (JStr "Gemini returned an unexpected response.")).
Proof.
  intros Hpost Hstatus Hbody Hshape.
  destruct (extract_text_raises data Hshape) as [e He].
  exists e. rewrite call_gemini_eq. cbv zeta.
  now rewrite Hpost, (success_not_error _ Hstatus), Hbody, He.
Qed.

Lemma call_gemini_fallback_on_missing_fields_witness :
  exists e,
    call_gemini (constant_world [] [] (answer 200 (Some (dict [("candidates", JList [])]))))
                [dict [("text", JStr "hi")]] =
      ([EvPost GEMINI_URL (envelope [dict [("text", JStr "hi")]]);
        EvLog "Unexpected response format: " e],
       OK (JStr "Gemini returned an unexpected response.")).
Proof.
  apply (call_gemini_fallback_on_missing_fields
           (constant_world [] [] (answer 200 (Some (dict [("candidates", JList [])]))))
           [dict [("text", JStr "hi")]]
           {| status_code := 200;
              json_body := Some (dict [("candidates", JList [])]) |}
           (dict [("candidates", JList [])]));
    reflexivity.
Defined.

(** A value found under the path is returned as it is, string or not. *)
Lemma call_gemini_returns_found_value
  (w : World) (parts : list value) (r : Response) (data v : value) :
  http_post w (envelope parts) = Responded r ->
  is_error_status (status_code r) = false ->
  json_body r = Some data ->
  expected_text data = Some v ->
  call_gemini w parts = ([EvPost GEMINI_URL (envelope parts)], OK v).
Proof.
  intros Hpost Hstatus Hbody Hshape.
  rewrite call_gemini_eq. cbv zeta.
  now rewrite Hpost, Hstatus, Hbody, (extract_text_complete _ _ Hshape).
Qed.

(** Claim C2, as stated, fails twice.  A 200 response whose text field
    is [null] has a malformed text field, and [call_gemini] returns [None],
    not the fixed string.  A 200 response whose body is not JSON lacks the
    fields altogether, and [call_gemini] raises. *)
Lemma call_gemini_fallback_counterexample :
  is_success_status 200 = true /\
  expected_string (reply_body JNull) = None /\
  outcome (call_gemini (constant_world [] [] (answer 200 (Some (reply_body JNull))))
                       [dict [("text", JStr "hi")]])
    = OK JNull /\
  OK JNull <> OK (JStr "Gemini returned an unexpected response.") /\
  outcome (call_gemini (constant_world [] [] (answer 200 None))
                       [dict [("text", JStr "hi")]])
    = Raise JSONDecodeError.
Proof.
  repeat split; try reflexivity. discriminate.
Qed.

(** ** The common tail of the handlers *)

Lemma complete_eq (w : World) (parts : list value) (msg err : string) :
  complete w parts msg err =
  match call_gemini w parts with
  | (t, OK v) => (t, OK v)
  | (t, Raise e) => ((t ++ [EvLog msg e])%list, OK (JStr err))
  end.
Proof.
  unfold complete, try_except.
  destruct (call_gemini w parts) as [t [v|e]]; reflexivity.
Qed.

(** The completion step posts the parts once, may log, and always ends with
    a reply to send. *)
Lemma complete_shape (w : World) (parts : list value) (msg err : string) :
  exists logs v,
    complete w parts msg err =
      (EvPost GEMINI_URL (envelope parts) :: logs, OK v) /\
    posts logs = [] /\ replies logs = [] /\ downloads logs = [].
Proof.
  rewrite complete_eq, call_gemini_eq. cbv zeta.
  destruct (http_post w (envelope parts)) as [|r]; [cbn; eauto 6|].
  destruct (is_error_status (status_code r)); [cbn; eauto 6|].
  destruct (json_body r) as [data|]; [|cbn; eauto 6].
  destruct (extract_text data); cbn; eauto 6.
Qed.

Lemma complete_on_failure (w : World) (parts : list value) (msg err : string) :
  http_failure (http_post w (envelope parts)) = true ->
  exists e,
    complete w parts msg err =
      ([EvPost GEMINI_URL (envelope parts); EvLog msg e], OK (JStr err)).
Proof.
  intros H. rewrite complete_eq, call_gemini_eq. cbv zeta.
  destruct (http_post w (envelope parts)) as [|r]; cbn in H.
  - now exists ConnectionError.
  - rewrite H. now exists (HTTPError (status_code r)).
Qed.

Lemma run_bind {A B} (t : list event) (a : A) (f : A -> M B) :
  bind (t, OK a) f = ((t ++ trace (f a))%list, outcome (f a)).
Proof. unfold bind, trace, outcome. now destruct (f a). Qed.

Lemma complete_then_reply (w : World) (parts : list value) (msg err : string)
  (logs : list event) (v : value) :
  complete w parts msg err = (EvPost GEMINI_URL (envelope parts) :: logs, OK v) ->
  (reply <- complete w parts msg err ;; reply_text reply) =
    (EvPost GEMINI_URL (envelope parts) :: logs ++ [EvReply v], OK tt)%list.
Proof. intros ->. reflexivity. Qed.

Lemma posts_app (t t' : list event) : posts (t ++ t') = (posts t ++ posts t')%list.
Proof. apply flat_map_app. Qed.

Lemma replies_app (t t' : list event) :
  replies (t ++ t') = (replies t ++ replies t')%list.
Proof. apply flat_map_app. Qed.

Lemma downloads_app (t t' : list event) :
  downloads (t ++ t') = (downloads t ++ downloads t')%list.
Proof. apply flat_map_app. Qed.

(** ** The handlers *)

Ltac run_complete w h parts :=
  let logs := fresh "logs" in
  let v := fresh "v" in
  let Hc := fresh "Hc" in
  destruct (complete_shape w parts (error_log h) (error_reply h))
    as (logs & v & Hc & ? & ? & ?);
  exists logs, v; unfold completes;
  rewrite Hc; cbn [error_log error_reply] in Hc;
  rewrite ?run_bind, (complete_then_reply _ _ _ _ _ _ Hc);
  cbn [trace outcome fst snd app];
  repeat split; reflexivity || assumption.

Lemma text_handler_run (w : World) (m : Message) :
  exists logs v,
    completes w MText (text_handler w m)
      [] [dict [("text", of_optional (text m))]] logs v.
Proof.
  unfold text_handler. cbv zeta.
  run_complete w MText [dict [("text", of_optional (text m))]].
Qed.

Lemma fetch_eq (w : World) (id : string) :
  fetch w id = ([EvDownload id], download w id).
Proof. unfold fetch, emit, lift, bind. reflexivity. Qed.

Lemma photo_handler_run (w : World) (m : Message) (p : PhotoSize)
  (bytes : list byte) :
  Py.list_getitem (photo m) (-1) = OK p ->
  download w (photo_file_id p) = OK bytes ->
  exists logs v,
    completes w MPhoto (photo_handler w m)
      [EvDownload (photo_file_id p)]
      [dict [("text", JStr "Please analyze this image:")];
       media_part "image" "image/jpeg" (b64encode bytes)]
      logs v.
Proof.
  intros Hp Hd. unfold photo_handler. rewrite Hp. unfold lift.
  rewrite run_bind, fetch_eq, Hd. cbv zeta.
  run_complete w MPhoto
    [dict [("text", JStr "Please analyze this image:")];
     media_part "image" "image/jpeg" (b64encode bytes)].
Qed.

Lemma document_handler_run (w : World) (m : Message) (doc : Attachment)
  (bytes : list byte) (pages : list (option string)) :
  document m = Some doc ->
  is_pdf (mime_type doc) = true ->
  download w (file_id doc) = OK bytes ->
  pdf_pages w bytes = OK pages ->
  exists logs v,
    completes w MDocument (document_handler w m)
      [EvDownload (file_id doc)]
      [dict [("text", JStr (pdf_prompt pages))]]
      logs v.
Proof.
  intros Hdoc Hpdf Hd Hpages. unfold document_handler. rewrite Hdoc, Hpdf.
  rewrite fetch_eq, Hd, run_bind. cbv beta. unfold lift. rewrite Hpages, run_bind.
  cbv zeta beta.
  destruct (complete_shape w [dict [("text", JStr (pdf_prompt pages))]]
              (error_log MDocument) (error_reply MDocument))
    as (logs & v & Hc & ? & ? & ?).
  exists logs, v. unfold completes. rewrite Hc.
  cbn [error_log error_reply] in Hc. rewrite Hc.
  cbn [trace outcome fst snd app]. rewrite run_bind.
  cbn [trace outcome fst snd app reply_text emit].
  repeat split; reflexivity || assumption.
Qed.

Lemma audio_handler_run (w : World) (m : Message) (audio : Attachment)
  (bytes : list byte) :
  or_else (effective_attachment m) (voice m) = Some audio ->
  download w (file_id audio) = OK bytes ->
  exists logs v,
    completes w MAudio (audio_handler w m)
      [EvDownload (file_id audio)]
      [dict [("text", JStr "Please transcribe or analyze this audio:")];
       media_part "audio" (Py.str_or (mime_type audio) "audio/ogg") (b64encode bytes)]
      logs v.
Proof.
  intros Ha Hd. unfold audio_handler. rewrite Ha, fetch_eq, Hd. cbv zeta.
  run_complete w MAudio
    [dict [("text", JStr "Please transcribe or analyze this audio:")];
     media_part "audio" (Py.str_or (mime_type audio) "audio/ogg") (b64encode bytes)].
Qed.

Lemma video_handler_run (w : World) (m : Message) (v0 : Attachment)
  (bytes : list byte) :
  video m = Some v0 ->
  download w (file_id v0) = OK bytes ->
  exists logs v,
    completes w MVideo (video_handler w m)
      [EvDownload (file_id v0)]
      [dict [("text", JStr "Please analyze this video:")];
       media_part "video" "video/mp4" (b64encode bytes)]
      logs v.
Proof.
  intros Hv Hd. unfold video_handler. rewrite Hv, fetch_eq, Hd. cbv zeta.
  run_complete w MVideo
    [dict [("text", JStr "Please analyze this video:")];
     media_part "video" "video/mp4" (b64encode bytes)].
Qed.

Lemma completes_posts (w : World) (h : Modality) (run : M unit)
  (pre : list event) (parts : list value) (logs : list event) (v : value) :
  completes w h run pre parts logs v -> posts (trace run) = [envelope parts].
Proof.
  intros (-> & _ & Hpre & _ & Hlogs & _).
  cbn [trace fst]. rewrite posts_app, Hpre. cbn.
  now rewrite posts_app, Hlogs.
Qed.

Lemma completes_replies (w : World) (h : Modality) (run : M unit)
  (pre : list event) (parts : list value) (logs : list event) (v : value) :
  completes w h run pre parts logs v ->
  replies (trace run) = [v] /\ outcome run = OK tt.
Proof.
  intros (-> & _ & _ & Hpre & _ & Hlogs & _).
  cbn [trace outcome fst snd]. rewrite replies_app, Hpre. cbn.
  now rewrite replies_app, Hlogs.
Qed.

Lemma completes_downloads (w : World) (h : Modality) (run : M unit)
  (pre : list event) (parts : list value) (logs : list event) (v : value) :
  completes w h run pre parts logs v ->
  downloads (trace run) = downloads pre.
Proof.
  intros (-> & _ & _ & _ & _ & _ & Hlogs).
  cbn [trace fst]. rewrite downloads_app. cbn.
  rewrite downloads_app, Hlogs. cbn. now rewrite app_nil_r.
Qed.

(** Every handler either posts nothing, or prepares a non-empty list of parts
    and goes through the completion step with it. *)
Lemma handler_cases (h : Modality) (w : World) (m : Message) :
  posts (trace (handler h w m)) = [] \/
  exists pre parts logs v,
    completes w h (handler h w m) pre parts logs v /\ parts <> [].
Proof.
  destruct h; cbn [handler].
  - right. destruct (text_handler_run w m) as (logs & v & H).
    exists [], [dict [("text", of_optional (text m))]], logs, v.
    split; [exact H|discriminate].
  - destruct (Py.list_getitem (photo m) (-1)) as [p|e] eqn:Hp.
    + destruct (download w (photo_file_id p)) as [bytes|e] eqn:Hd.
      * right. destruct (photo_handler_run w m p bytes Hp Hd) as (logs & v & H).
        do 4 eexists. split; [exact H|discriminate].
      * left. unfold photo_handler. rewrite Hp. unfold lift.
        rewrite run_bind, fetch_eq, Hd. reflexivity.
    + left. unfold photo_handler. rewrite Hp. reflexivity.
  - destruct (document m) as [doc|] eqn:Hdoc.
    + destruct (is_pdf (mime_type doc)) eqn:Hpdf.
      * destruct (download w (file_id doc)) as [bytes|e] eqn:Hd.
        -- destruct (pdf_pages w bytes) as [pages|e] eqn:Hpages.
           ++ right.
              destruct (document_handler_run w m doc bytes pages Hdoc Hpdf Hd Hpages)
                as (logs & v & H).
              do 4 eexists. split; [exact H|discriminate].
           ++ left. unfold document_handler.
              rewrite Hdoc, Hpdf, fetch_eq, Hd, run_bind. cbv beta.
              unfold lift. rewrite Hpages. reflexivity.
        -- left. unfold document_handler. rewrite Hdoc, Hpdf, fetch_eq, Hd.
           reflexivity.
      * left. unfold document_handler. rewrite Hdoc, Hpdf. reflexivity.
    + left. unfold document_handler. rewrite Hdoc. reflexivity.
  - destruct (or_else (effective_attachment m) (voice m)) as [audio|] eqn:Ha.
    + destruct (download w (file_id audio)) as [bytes|e] eqn:Hd.
      * right. destruct (audio_handler_run w m audio bytes Ha Hd) as (logs & v & H).
        do 4 eexists. split; [exact H|discriminate].
      * left. unfold audio_handler. rewrite Ha, fetch_eq, Hd. reflexivity.
    + left. unfold audio_handler. rewrite Ha. reflexivity.
  - destruct (video m) as [v0|] eqn:Hv.
    + destruct (download w (file_id v0)) as [bytes|e] eqn:Hd.
      * right. destruct (video_handler_run w m v0 bytes Hv Hd) as (logs & v & H).
        do 4 eexists. split; [exact H|discriminate].
      * left. unfold video_handler. rewrite Hv, fetch_eq, Hd. reflexivity.
    + left. unfold video_handler. rewrite Hv. reflexivity.
Qed.

Lemma envelope_inj (parts parts' : list value) :
  envelope parts = envelope parts' -> parts = parts'.
Proof. unfold envelope, dict. intros H. now inversion H. Qed.

(** Claim C8. Whatever the handler and the message, a body posted to the
    completion endpoint wraps a list of parts that has at least one
    element. *)
Theorem posted_parts_nonempty (h : Modality) (w : World) (m : Message)
  (body : value) :
  In body (posts (trace (handler h w m))) ->
  exists parts, body = envelope parts /\ (1 <= List.length parts)%nat.
Proof.
  intros Hin.
  destruct (handler_cases h w m) as [Hnone|(pre & parts & logs & v & H & Hne)].
  - rewrite Hnone in Hin. destruct Hin.
  - rewrite (completes_posts _ _ _ _ _ _ _ H) in Hin.
    destruct Hin as [<-|[]]. exists parts. split; [reflexivity|].
    destruct parts; [congruence|cbn; lia].
Qed.

Lemma posted_parts_nonempty_witness :
  exists parts,
    envelope [dict [("text", JStr "Please analyze this video:")];
              media_part "video" "video/mp4" "TWFu"] = envelope parts /\
    (1 <= List.length parts)%nat.
Proof.
  apply (posted_parts_nonempty MVideo
           (constant_world sample_bytes [] (answer 200 (Some (reply_body (JStr "ok")))))
           (sample_message MVideo)).
  vm_compute. left. reflexivity.
Defined.

(** Claim C7. The text handler posts one list of parts, and that list has
    one element, the dict ["text"] whose value is the message text as it
    came. *)
Theorem text_handler_parts (w : World) (m : Message) (body : string) :
  text m = Some body ->
  posts (trace (text_handler w m)) = [envelope [dict [("text", JStr body)]]].
Proof.
  intros Htext.
  destruct (text_handler_run w m) as (logs & v & H).
  rewrite (completes_posts _ _ _ _ _ _ _ H), Htext. reflexivity.
Qed.

Lemma text_handler_parts_witness :
  posts (trace (text_handler
                  (constant_world [] [] (answer 200 (Some (reply_body (JStr "ok")))))
                  (text_message "hello"))) =
    [envelope [dict [("text", JStr "hello")]]].
Proof.
  apply (text_handler_parts
           (constant_world [] [] (answer 200 (Some (reply_body (JStr "ok")))))
           (text_message "hello") "hello").
  reflexivity.
Defined.

(** Claim C4, as the code has it.  When the completion call of a handler
    fails at the HTTP level, that is, [requests.post] raises or the response
    has a 4xx or 5xx status, the handler sends one reply, the fixed error
    string of its modality, and ends normally. *)
Theorem handler_replies_fixed_error (h : Modality) (w : World) (m : Message)
  (parts : list value) :
  In (envelope parts) (posts (trace (handler h w m))) ->
  http_failure (http_post w (envelope parts)) = true ->
  replies (trace (handler h w m)) = [JStr (error_reply h)] /\
  outcome (handler h w m) = OK tt.
Proof.
  intros Hin Hfail.
  destruct (handler_cases h w m) as [Hnone|(pre & parts' & logs & v & H & _)].
  - rewrite Hnone in Hin. destruct Hin.
  - rewrite (completes_posts _ _ _ _ _ _ _ H) in Hin.
    destruct Hin as [Heq|[]]. apply envelope_inj in Heq. subst parts'.
    destruct (complete_on_failure w parts (error_log h) (error_reply h) Hfail)
      as (e & He).
    destruct H as (Hrun & Hc & Hrest).
    rewrite He in Hc. inversion Hc; subst.
    apply (completes_replies w h _ pre parts [EvLog (error_log h) e]).
    unfold completes. rewrite He. tauto.
Qed.

Lemma handler_replies_fixed_error_witness :
  replies (trace (handler MAudio (constant_world sample_bytes [] (answer 500 None))
                    (sample_message MAudio))) =
    [JStr "Error processing audio."] /\
  outcome (handler MAudio (constant_world sample_bytes [] (answer 500 None))
             (sample_message MAudio)) = OK tt.
Proof.
  apply (handler_replies_fixed_error MAudio
           (constant_world sample_bytes [] (answer 500 None))
           (sample_message MAudio)
           [dict [("text", JStr "Please transcribe or analyze this audio:")];
            media_part "audio" "audio/mpeg" "TWFu"]).
  - vm_compute. left. reflexivity.
  - reflexivity.
Defined.

(** Claim C4, as stated, fails: status 300 is not a 2xx status, yet
    [raise_for_status] lets it through, and the text handler replies with the
    text of the response body, not with its error string. *)
Lemma handler_fixed_error_counterexample :
  no_2xx_response (answer 300 (Some (reply_body (JStr "hi")))) = true /\
  posts (trace (handler MText
                  (constant_world [] [] (answer 300 (Some (reply_body (JStr "hi")))))
                  (text_message "hello"))) =
    [envelope [dict [("text", JStr "hello")]]] /\
  replies (trace (handler MText
                    (constant_world [] [] (answer 300 (Some (reply_body (JStr "hi")))))
                    (text_message "hello"))) = [JStr "hi"] /\
  JStr "hi" <> JStr (error_reply MText).
Proof.
  repeat split; try reflexivity. discriminate.
Qed.

(** Claim C5. A document whose MIME type is not [application/pdf]: the
    handler downloads nothing, posts nothing and sends the one reply
    "Unsupported document type: " followed by the MIME type. *)
Theorem document_handler_unsupported (w : World) (m : Message) (doc : Attachment) :
  document m = Some doc ->
  mime_type doc <> Some "application/pdf" ->
  document_handler w m =
    ([EvReply (JStr ("Unsupported document type: " ++ Py.format (mime_type doc)))],
     OK tt).
Proof.
  intros Hdoc Hmime. unfold document_handler. rewrite Hdoc.
  assert (Hpdf : is_pdf (mime_type doc) = false).
  { unfold is_pdf. destruct (mime_type doc) as [s|]; [|reflexivity].
    destruct (String.eqb_spec s "application/pdf"); [|reflexivity].
    subst s. now contradiction Hmime. }
  rewrite Hpdf. reflexivity.
Qed.

Lemma document_handler_unsupported_witness :
  document_handler
    (constant_world [] [] (answer 200 (Some (reply_body (JStr "ok")))))
    (document_message {| file_id := "z"; mime_type := Some "application/zip" |}) =
    ([EvReply (JStr "Unsupported document type: application/zip")], OK tt).
Proof.
  apply (document_handler_unsupported
           (constant_world [] [] (answer 200 (Some (reply_body (JStr "ok")))))
           (document_message {| file_id := "z"; mime_type := Some "application/zip" |})
           {| file_id := "z"; mime_type := Some "application/zip" |}).
  - reflexivity.
  - simpl. discriminate.
Defined.

(** Claim C3. A PDF whose pages give "Hello", nothing (or the empty
    string) and "World": the handler posts one list of parts with one
    element, a text part that holds "Hello\n\nWorld" between the heading
    "Extracted text from PDF:\n" and the instruction "\n\nPlease summarize.". *)
Theorem document_handler_pdf_parts (w : World) (m : Message) (doc : Attachment)
  (bytes : list byte) (middle : option string) :
  document m = Some doc ->
  mime_type doc = Some "application/pdf" ->
  download w (file_id doc) = OK bytes ->
  pdf_pages w bytes = OK [Some "Hello"; middle; Some "World"] ->
  middle = None \/ middle = Some "" ->
  posts (trace (document_handler w m)) =
    [envelope
       [dict [("text",
               JStr ("Extracted text from PDF:" ++ Py.LF ++
                     ("Hello" ++ Py.LF ++ Py.LF ++ "World") ++
                     Py.LF ++ Py.LF ++ "Please summarize."))]]].
Proof.
  intros Hdoc Hmime Hd Hpages Hmiddle.
  assert (Hpdf : is_pdf (mime_type doc) = true) by now rewrite Hmime.
  destruct (document_handler_run w m doc bytes _ Hdoc Hpdf Hd Hpages)
    as (logs & v & H).
  rewrite (completes_posts _ _ _ _ _ _ _ H).
  destruct Hmiddle as [-> | ->]; reflexivity.
Qed.

Lemma document_handler_pdf_parts_witness :
  posts (trace (document_handler
                  (constant_world sample_bytes [Some "Hello"; None; Some "World"]
                     (answer 200 (Some (reply_body (JStr "ok")))))
                  (sample_message MDocument))) =
    [envelope
       [dict [("text",
               JStr ("Extracted text from PDF:" ++ Py.LF ++
                     ("Hello" ++ Py.LF ++ Py.LF ++ "World") ++
                     Py.LF ++ Py.LF ++ "Please summarize."))]]].
Proof.
  apply (document_handler_pdf_parts
           (constant_world sample_bytes [Some "Hello"; None; Some "World"]
              (answer 200 (Some (reply_body (JStr "ok")))))
           (sample_message MDocument)
           {| file_id := "d"; mime_type := Some "application/pdf" |}
           sample_bytes None).
  - reflexivity.
  - reflexivity.
  - reflexivity.
  - reflexivity.
  - left. reflexivity.
Defined.

(** ** Photos *)

Lemma photo_handler_downloads (w : World) (m : Message) (p : PhotoSize) :
  Py.list_getitem (photo m) (-1) = OK p ->
  downloads (trace (photo_handler w m)) = [photo_file_id p].
Proof.
  intros Hp.
  destruct (download w (photo_file_id p)) as [bytes|e] eqn:Hd.
  - destruct (photo_handler_run w m p bytes Hp Hd) as (logs & v & H).
    now rewrite (completes_downloads _ _ _ _ _ _ _ H).
  - unfold photo_handler. rewrite Hp. unfold lift.
    rewrite run_bind, fetch_eq, Hd. reflexivity.
Qed.

Section LargestPhoto.

(** What "largest" is measured by: pixels, bytes, ... *)
Variable measure : PhotoSize -> Z.

Lemma ascending_last_max (l : list PhotoSize) (d : PhotoSize) :
  ascending measure l ->
  forall q, In q l -> (measure q <= measure (last l d))%Z.
Proof.
  induction l as [|x l IH]; intros Hasc q Hq; [destruct Hq|].
  destruct l as [|y l'].
  - destruct Hq as [->|[]]. cbn. lia.
  - destruct Hasc as [Hxy Hrest].
    change (last (x :: y :: l') d) with (last (y :: l') d).
    destruct Hq as [->|Hq].
    + specialize (IH Hrest y (or_introl eq_refl)). lia.
    + now apply IH.
Qed.

(** Claim C6. For a photo message whose size list is in the order of the
    platform, ascending, the photo handler downloads the last entry of the
    list, and that entry is one of the sizes offered and the largest of
    them. *)
Theorem photo_handler_downloads_largest (w : World) (m : Message) (d : PhotoSize) :
  photo m <> [] ->
  ascending measure (photo m) ->
  downloads (trace (photo_handler w m)) = [photo_file_id (last (photo m) d)] /\
  In (last (photo m) d) (photo m) /\
  forall q, In q (photo m) -> (measure q <= measure (last (photo m) d))%Z.
Proof.
  intros Hne Hasc. repeat split.
  - apply photo_handler_downloads. now apply list_getitem_last.
  - destruct (exists_last Hne) as (l & a & ->).
    rewrite last_last. apply in_or_app. right. now left.
  - now apply ascending_last_max.
Qed.

End LargestPhoto.

Lemma photo_handler_downloads_largest_witness :
  downloads (trace (photo_handler
                      (constant_world sample_bytes [] (answer 200 None))
                      (photo_message
                         [{| photo_file_id := "small"; width := 90; height := 60 |};
                          {| photo_file_id := "medium"; width := 320; height := 213 |};
                          {| photo_file_id := "large"; width := 1280; height := 853 |}])))
    = ["large"] /\
  In {| photo_file_id := "large"; width := 1280; height := 853 |}
     [{| photo_file_id := "small"; width := 90; height := 60 |};
      {| photo_file_id := "medium"; width := 320; height := 213 |};
      {| photo_file_id := "large"; width := 1280; height := 853 |}] /\
  forall q,
    In q [{| photo_file_id := "small"; width := 90; height := 60 |};
          {| photo_file_id := "medium"; width := 320; height := 213 |};
          {| photo_file_id := "large"; width := 1280; height := 853 |}] ->
    (resolution q <= 1280 * 853)%Z.
Proof.
  apply (photo_handler_downloads_largest resolution
           (constant_world sample_bytes [] (answer 200 None))
           (photo_message
              [{| photo_file_id := "small"; width := 90; height := 60 |};
               {| photo_file_id := "medium"; width := 320; height := 213 |};
               {| photo_file_id := "large"; width := 1280; height := 853 |}])
           {| photo_file_id := ""; width := 0; height := 0 |}).
  - simpl. discriminate.
  - vm_compute. repeat split; discriminate.
Defined.

(** ** Media parts *)

(** Claim C9. In the photo, audio and video handlers, the body posted holds
    an instruction and one media part, and decoding the base64 text in the
    [data] field of that part gives the bytes the handler downloaded. *)
Theorem media_data_decodes_to_download (h : Modality) (kind : string)
  (w : World) (m : Message) (body : value) :
  media_kind h = Some kind ->
  In body (posts (trace (handler h w m))) ->
  exists id bytes instruction mime data,
    downloads (trace (handler h w m)) = [id] /\
    download w id = OK bytes /\
    body = envelope [instruction; media_part kind mime data] /\
    Base64.decode data = Some bytes.
Proof.
  intros Hkind Hin.
  destruct h; cbn in Hkind; try discriminate;
    injection Hkind as <-; cbn [handler] in *.
  - destruct (Py.list_getitem (photo m) (-1)) as [p|e] eqn:Hp.
    + destruct (download w (photo_file_id p)) as [bytes|e] eqn:Hd.
      * destruct (photo_handler_run w m p bytes Hp Hd) as (logs & v & H).
        rewrite (completes_posts _ _ _ _ _ _ _ H) in Hin.
        destruct Hin as [<-|[]].
        exists (photo_file_id p), bytes. do 3 eexists.
        rewrite (completes_downloads _ _ _ _ _ _ _ H).
        repeat split; [exact Hd|apply Base64Facts.decode_encode].
      * unfold photo_handler in Hin. rewrite Hp in Hin. unfold lift in Hin.
        rewrite run_bind, fetch_eq, Hd in Hin. destruct Hin.
    + unfold photo_handler in Hin. rewrite Hp in Hin. destruct Hin.
  - destruct (or_else (effective_attachment m) (voice m)) as [audio|] eqn:Ha.
    + destruct (download w (file_id audio)) as [bytes|e] eqn:Hd.
      * destruct (audio_handler_run w m audio bytes Ha Hd) as (logs & v & H).
        rewrite (completes_posts _ _ _ _ _ _ _ H) in Hin.
        destruct Hin as [<-|[]].
        exists (file_id audio), bytes. do 3 eexists.
        rewrite (completes_downloads _ _ _ _ _ _ _ H).
        repeat split; [exact Hd|apply Base64Facts.decode_encode].
      * unfold audio_handler in Hin. rewrite Ha, fetch_eq, Hd in Hin.
        destruct Hin.
    + unfold audio_handler in Hin. rewrite Ha in Hin. destruct Hin.
  - destruct (video m) as [v0|] eqn:Hv.
    + destruct (download w (file_id v0)) as [bytes|e] eqn:Hd.
      * destruct (video_handler_run w m v0 bytes Hv Hd) as (logs & v & H).
        rewrite (completes_posts _ _ _ _ _ _ _ H) in Hin.
        destruct Hin as [<-|[]].
        exists (file_id v0), bytes. do 3 eexists.
        rewrite (completes_downloads _ _ _ _ _ _ _ H).
        repeat split; [exact Hd|apply Base64Facts.decode_encode].
      * unfold video_handler in Hin. rewrite Hv, fetch_eq, Hd in Hin.
        destruct Hin.
    + unfold video_handler in Hin. rewrite Hv in Hin. destruct Hin.
Qed.

Lemma media_data_decodes_to_download_witness :
  exists id bytes instruction mime data,
    downloads (trace (handler MPhoto
                        (constant_world sample_bytes []
                           (answer 200 (Some (reply_body (JStr "ok")))))
                        (sample_message MPhoto))) = [id] /\
    download (constant_world sample_bytes []
                (answer 200 (Some (reply_body (JStr "ok"))))) id = OK bytes /\
    envelope [dict [("text", JStr "Please analyze this image:")];
              media_part "image" "image/jpeg" "TWFu"] =
      envelope [instruction; media_part "image" mime data] /\
    Base64.decode data = Some bytes.
Proof.
  apply (media_data_decodes_to_download MPhoto "image"
           (constant_world sample_bytes []
              (answer 200 (Some (reply_body (JStr "ok")))))
           (sample_message MPhoto)).
  - reflexivity.
  - vm_compute. left. reflexivity.
Defined.

(** The test vectors of RFC 4648, section 10. *)
Example encode_f : Base64.encode [x66] = "Zg==".
Proof. reflexivity. Qed.

Example encode_fo : Base64.encode [x66; x6f] = "Zm8=".
Proof. reflexivity. Qed.

Example encode_foo : Base64.encode [x66; x6f; x6f] = "Zm9v".
Proof. reflexivity. Qed.

Example encode_foobar :
  Base64.encode [x66; x6f; x6f; x62; x61; x72] = "Zm9vYmFy".
Proof. reflexivity. Qed.

Example decode_foob : Base64.decode "Zm9vYg==" = Some [x66; x6f; x6f; x62].
Proof. reflexivity. Qed.

(** The MIME type each media handler sends. *)
Lemma audio_handler_mime (w : World) (m : Message) (audio : Attachment)
  (bytes : list byte) :
  or_else (effective_attachment m) (voice m) = Some audio ->
  download w (file_id audio) = OK bytes ->
  posts (trace (audio_handler w m)) =
    [envelope [dict [("text", JStr "Please transcribe or analyze this audio:")];
               media_part "audio" (Py.str_or (mime_type audio) "audio/ogg")
                 (b64encode bytes)]].
Proof.
  intros Ha Hd.
  destruct (audio_handler_run w m audio bytes Ha Hd) as (logs & v & H).
  exact (completes_posts _ _ _ _ _ _ _ H).
Qed.

(** The video handler labels every video [video/mp4], whatever MIME type
    the attachment reports. *)
Lemma video_handler_mime (w : World) (m : Message) (v0 : Attachment)
  (bytes : list byte) :
  video m = Some v0 ->
  download w (file_id v0) = OK bytes ->
  posts (trace (video_handler w m)) =
    [envelope [dict [("text", JStr "Please analyze this video:")];
               media_part "video" "video/mp4" (b64encode bytes)]].
Proof.
  intros Hv Hd.
  destruct (video_handler_run w m v0 bytes Hv Hd) as (logs & v & H).
  exact (completes_posts _ _ _ _ _ _ _ H).
Qed.

(** Claim C1. The platform reports [video/quicktime] for a video and the
    video handler sends the part as [video/mp4]: it never reads the MIME type
    of the attachment.  The audio handler, on an attachment that reports
    [audio/mpeg], sends [audio/mpeg]. *)
Theorem video_handler_ignores_reported_mime :
  posts (trace (video_handler
                  (constant_world sample_bytes []
                     (answer 200 (Some (reply_body (JStr "ok")))))
                  (video_message
                     {| file_id := "v"; mime_type := Some "video/quicktime" |}))) =
    [envelope [dict [("text", JStr "Please analyze this video:")];
               media_part "video" "video/mp4" "TWFu"]] /\
  posts (trace (audio_handler
                  (constant_world sample_bytes []
                     (answer 200 (Some (reply_body (JStr "ok")))))
                  (voice_message
                     {| file_id := "a"; mime_type := Some "audio/mpeg" |}))) =
    [envelope [dict [("text", JStr "Please transcribe or analyze this audio:")];
               media_part "audio" "audio/mpeg" "TWFu"]].
Proof. split; reflexivity. Qed.

(** * Further properties of the code *)

(** ** The completion client *)

(** The subscript chain of [call_gemini] finds a value exactly in a body of
    the shape [{"candidates": [{"content": {"parts": [{"text": v}]}}]}]: a
    string or a dict standing where a list is expected does not get
    through. *)
Theorem extract_text_iff (data v : value) :
  extract_text data = OK v <-> expected_text data = Some v.
Proof.
  split; [apply extract_text_sound|apply extract_text_complete].
Qed.

(** A failed call: [requests.post] raised, or the status is 4xx or 5xx.
    [call_gemini] raises after its one POST; it does not retry, logs nothing
    and does not look at the body. *)
Theorem call_gemini_http_failure (w : World) (parts : list value) :
  http_failure (http_post w (envelope parts)) = true ->
  call_gemini w parts =
    ([EvPost GEMINI_URL (envelope parts)],
     Raise (failure_error (http_post w (envelope parts)))).
Proof.
  intros H. rewrite call_gemini_eq. cbv zeta.
  destruct (http_post w (envelope parts)) as [|r]; cbn in *; [reflexivity|].
  now rewrite H.
Qed.

Lemma call_gemini_http_failure_witness :
  call_gemini
    (constant_world [] [] (answer 503 (Some (reply_body (JStr "ok")))))
    [dict [("text", JStr "hi")]] =
    ([EvPost GEMINI_URL (envelope [dict [("text", JStr "hi")]])],
     Raise (HTTPError 503)).
Proof.
  apply (call_gemini_http_failure
           (constant_world [] [] (answer 503 (Some (reply_body (JStr "ok")))))
           [dict [("text", JStr "hi")]]).
  reflexivity.
Defined.

(** Whatever the endpoint answers, [call_gemini] posts once, the envelope of
    the parts it was given, sends no reply and downloads nothing. *)
Theorem call_gemini_posts_once (w : World) (parts : list value) :
  posts (trace (call_gemini w parts)) = [envelope parts] /\
  replies (trace (call_gemini w parts)) = [] /\
  downloads (trace (call_gemini w parts)) = [].
Proof.
  rewrite call_gemini_eq. cbv zeta.
  destruct (http_post w (envelope parts)) as [|r]; [now cbn|].
  destruct (is_error_status (status_code r)); [now cbn|].
  destruct (json_body r) as [data|]; [|now cbn].
  destruct (extract_text data); now cbn.
Qed.

(** The exceptions [call_gemini] lets out are those of the request, of the
    status check and of the JSON parse; the KeyError, IndexError or TypeError
    of a subscript never leaves it. *)
Theorem call_gemini_raises_only (w : World) (parts : list value) (e : exn) :
  outcome (call_gemini w parts) = Raise e ->
  e = ConnectionError \/
  (exists status, e = HTTPError status /\ (400 <= status < 600)%Z) \/
  e = JSONDecodeError.
Proof.
  rewrite call_gemini_eq. cbv zeta.
  destruct (http_post w (envelope parts)) as [|r].
  - cbn. intros [= <-]. now left.
  - destruct (is_error_status (status_code r)) eqn:Hs.
    + cbn. intros [= <-]. right. left. exists (status_code r).
      split; [reflexivity|].
      unfold is_error_status in Hs. apply andb_true_iff in Hs as [H1 H2].
      apply Z.leb_le in H1. apply Z.ltb_lt in H2. lia.
    + destruct (json_body r) as [data|].
      * destruct (extract_text data); cbn; discriminate.
      * cbn. intros [= <-]. now right; right.
Qed.

Lemma call_gemini_raises_only_witness :
  JSONDecodeError = ConnectionError \/
  (exists status, JSONDecodeError = HTTPError status /\ (400 <= status < 600)%Z) \/
  JSONDecodeError = JSONDecodeError.
Proof.
  apply (call_gemini_raises_only
           (constant_world [] [] (answer 200 None))
           [dict [("text", JStr "hi")]]).
  reflexivity.
Defined.

Lemma call_gemini_returns_found_value_witness :
  call_gemini
    (constant_world [] [] (answer 201 (Some (reply_body (JInt 7)))))
    [dict [("text", JStr "hi")]] =
    ([EvPost GEMINI_URL (envelope [dict [("text", JStr "hi")]])], OK (JInt 7)).
Proof.
  apply (call_gemini_returns_found_value
           (constant_world [] [] (answer 201 (Some (reply_body (JInt 7)))))
           [dict [("text", JStr "hi")]]
           {| status_code := 201; json_body := Some (reply_body (JInt 7)) |}
           (reply_body (JInt 7)));
    reflexivity.
Defined.

(** ** How a handler runs *)

(** The five ways a handler can run: it finds no attachment; the download
    fails; the PDF cannot be read; the document is not a PDF; or it prepares
    its parts and goes through the completion step. *)
Lemma handler_run_cases (h : Modality) (w : World) (m : Message) :
  (lacks_attachment h m = true /\
   handler h w m = ([], Raise (missing_attachment_error h))) \/
  (exists id e,
     handler h w m = ([EvDownload id], Raise e) /\ download w id = Raise e) \/
  (exists id bytes e,
     handler h w m = ([EvDownload id], Raise e) /\
     download w id = OK bytes /\ pdf_pages w bytes = Raise e) \/
  (exists doc,
     document m = Some doc /\
     handler h w m =
       ([EvReply (JStr ("Unsupported document type: " ++ Py.format (mime_type doc)))],
        OK tt)) \/
  (exists pre parts logs v,
     completes w h (handler h w m) pre parts logs v /\
     (pre = [] \/
      exists id bytes, pre = [EvDownload id] /\ download w id = OK bytes)).
Proof.
  destruct h; cbn [handler lacks_attachment missing_attachment_error].
  - do 4 right. destruct (text_handler_run w m) as (logs & v & H).
    exists [], [dict [("text", of_optional (text m))]], logs, v. auto.
  - destruct (photo m) as [|p0 l] eqn:Hphoto.
    + left. split; [reflexivity|]. unfold photo_handler. now rewrite Hphoto.
    + assert (Hp : Py.list_getitem (photo m) (-1) = OK (last (photo m) p0))
        by (apply list_getitem_last; rewrite Hphoto; discriminate).
      destruct (download w (photo_file_id (last (photo m) p0))) as [bytes|e] eqn:Hd.
      * do 4 right.
        destruct (photo_handler_run w m _ bytes Hp Hd) as (logs & v & H).
        do 4 eexists. split; [exact H|]. right. eauto.
      * right. left. exists (photo_file_id (last (photo m) p0)), e.
        split; [|exact Hd]. unfold photo_handler. rewrite Hp. unfold lift.
        rewrite run_bind, fetch_eq, Hd. reflexivity.
  - destruct (document m) as [doc|] eqn:Hdoc.
    + destruct (is_pdf (mime_type doc)) eqn:Hpdf.
      * destruct (download w (file_id doc)) as [bytes|e] eqn:Hd.
        -- destruct (pdf_pages w bytes) as [pages|e] eqn:Hpages.
           ++ do 4 right.
              destruct (document_handler_run w m doc bytes pages Hdoc Hpdf Hd Hpages)
                as (logs & v & H).
              do 4 eexists. split; [exact H|]. right. eauto.
           ++ do 2 right. left. exists (file_id doc), bytes, e.
              split; [|auto]. unfold document_handler.
              rewrite Hdoc, Hpdf, fetch_eq, Hd, run_bind. cbv beta.
              unfold lift. rewrite Hpages. reflexivity.
        -- right. left. exists (file_id doc), e. split; [|exact Hd].
           unfold document_handler. rewrite Hdoc, Hpdf, fetch_eq, Hd.
           reflexivity.
      * do 3 right. left. exists doc. split; [reflexivity|].
        unfold document_handler. rewrite Hdoc, Hpdf. reflexivity.
    + left. split; [reflexivity|]. unfold document_handler. now rewrite Hdoc.
  - destruct (or_else (effective_attachment m) (voice m)) as [audio|] eqn:Ha.
    + destruct (download w (file_id audio)) as [bytes|e] eqn:Hd.
      * do 4 right.
        destruct (audio_handler_run w m audio bytes Ha Hd) as (logs & v & H).
        do 4 eexists. split; [exact H|]. right. eauto.
      * right. left. exists (file_id audio), e. split; [|exact Hd].
        unfold audio_handler. rewrite Ha, fetch_eq, Hd. reflexivity.
    + left. split; [reflexivity|]. unfold audio_handler. now rewrite Ha.
  - destruct (video m) as [v0|] eqn:Hv.
    + destruct (download w (file_id v0)) as [bytes|e] eqn:Hd.
      * do 4 right.
        destruct (video_handler_run w m v0 bytes Hv Hd) as (logs & v & H).
        do 4 eexists. split; [exact H|]. right. eauto.
      * right. left. exists (file_id v0), e. split; [|exact Hd].
        unfold video_handler. rewrite Hv, fetch_eq, Hd. reflexivity.
    + left. split; [reflexivity|]. unfold video_handler. now rewrite Hv.
Qed.

(** A handler that ends normally has sent exactly one reply, and the reply
    is the last thing it did. *)
Theorem handler_ok_ends_with_reply (h : Modality) (w : World) (m : Message) :
  outcome (handler h w m) = OK tt ->
  exists t v, trace (handler h w m) = (t ++ [EvReply v])%list /\ replies t = [].
Proof.
  intros Hok.
  destruct (handler_run_cases h w m)
    as [(_ & H)|[(id & e & H & _)|[(id & bytes & e & H & _)|
        [(doc & _ & H)|(pre & parts & logs & v & H & _)]]]];
    try (rewrite H in Hok; discriminate).
  - rewrite H. exists []. eexists. split; reflexivity.
  - destruct H as (-> & _ & _ & Hpre & _ & Hlogs & _).
    exists (pre ++ EvPost GEMINI_URL (envelope parts) :: logs)%list, v.
    cbn [trace fst]. split.
    + now rewrite <- app_assoc.
    + rewrite replies_app, Hpre. cbn. exact Hlogs.
Qed.

Lemma handler_ok_ends_with_reply_witness :
  exists t v,
    trace (handler MDocument
             (constant_world sample_bytes [Some "Hello"] (answer 500 None))
             (sample_message MDocument)) = (t ++ [EvReply v])%list /\
    replies t = [].
Proof.
  apply (handler_ok_ends_with_reply MDocument
           (constant_world sample_bytes [Some "Hello"] (answer 500 None))
           (sample_message MDocument)).
  reflexivity.
Defined.



(** When the download of the attachment fails, the handler raises the
    exception of the download: it posts nothing and the user gets no
    reply. *)
Theorem download_failure_propagates (h : Modality) (w : World) (m : Message)
  (id : string) (e : exn) :
  downloads (trace (handler h w m)) = [id] ->
  download w id = Raise e ->
  handler h w m = ([EvDownload id], Raise e).
Proof.
  intros Hdl Hfail.
  destruct (handler_run_cases h w m)
    as [(_ & H)|[(id' & e' & H & Hd)|[(id' & bytes & e' & H & Hd & _)|
        [(doc & _ & H)|(pre & parts & logs & v & H & Hpre)]]]].
  - rewrite H in Hdl. discriminate.
  - rewrite H in Hdl. cbn in Hdl. injection Hdl as ->.
    rewrite H. congruence.
  - rewrite H in Hdl. cbn in Hdl. injection Hdl as ->. congruence.
  - rewrite H in Hdl. discriminate.
  - rewrite (completes_downloads _ _ _ _ _ _ _ H) in Hdl.
    destruct Hpre as [->|(id' & bytes & -> & Hd)]; [discriminate|].
    cbn in Hdl. injection Hdl as ->. congruence.
Qed.

Lemma download_failure_propagates_witness :
  handler MVideo
    {| download := fun _ => Raise DownloadError;
       pdf_pages := fun _ => OK [];
       http_post := fun _ => TransportError |}
    (sample_message MVideo) =
    ([EvDownload "v"], Raise DownloadError).
Proof.
  apply (download_failure_propagates MVideo
           {| download := fun _ => Raise DownloadError;
              pdf_pages := fun _ => OK [];
              http_post := fun _ => TransportError |}
           (sample_message MVideo) "v" DownloadError);
    reflexivity.
Defined.

(** When PyPDF2 cannot read the downloaded PDF, the document handler raises
    the exception of the reader: it posts nothing, and "Error processing PDF."
    is not sent. *)
Theorem pdf_read_failure_propagates (w : World) (m : Message) (doc : Attachment)
  (bytes : list byte) (e : exn) :
  document m = Some doc ->
  mime_type doc = Some "application/pdf" ->
  download w (file_id doc) = OK bytes ->
  pdf_pages w bytes = Raise e ->
  document_handler w m = ([EvDownload (file_id doc)], Raise e).
Proof.
  intros Hdoc Hmime Hd Hpages. unfold document_handler.
  rewrite Hdoc, Hmime. cbn [is_pdf].
  replace ("application/pdf" =? "application/pdf")%string with true by reflexivity.
  rewrite fetch_eq, Hd, run_bind. cbv beta. unfold lift. rewrite Hpages.
  reflexivity.
Qed.

Lemma pdf_read_failure_propagates_witness :
  document_handler
    {| download := fun _ => OK sample_bytes;
       pdf_pages := fun _ => Raise PdfReadError;
       http_post := fun _ => TransportError |}
    (sample_message MDocument) =
    ([EvDownload "d"], Raise PdfReadError).
Proof.
  apply (pdf_read_failure_propagates
           {| download := fun _ => OK sample_bytes;
              pdf_pages := fun _ => Raise PdfReadError;
              http_post := fun _ => TransportError |}
           (sample_message MDocument)
           {| file_id := "d"; mime_type := Some "application/pdf" |}
           sample_bytes PdfReadError);
    reflexivity.
Defined.

(** A message without the attachment its handler reads: the handler raises
    at once (IndexError for the empty size list of the photo handler,
    AttributeError for the others), before any download, POST or reply. *)
Theorem missing_attachment_raises (h : Modality) (w : World) (m : Message) :
  lacks_attachment h m = true ->
  handler h w m = ([], Raise (missing_attachment_error h)).
Proof.
  destruct h; cbn [handler lacks_attachment missing_attachment_error]; intros H.
  - discriminate.
  - unfold photo_handler. destruct (photo m); [reflexivity|discriminate].
  - unfold document_handler. destruct (document m); [discriminate|reflexivity].
  - unfold audio_handler.
    destruct (or_else (effective_attachment m) (voice m));
      [discriminate|reflexivity].
  - unfold video_handler. destruct (video m); [discriminate|reflexivity].
Qed.

Lemma missing_attachment_raises_witness :
  handler MPhoto (constant_world [] [] TransportError) empty_message =
    ([], Raise IndexError).
Proof.
  apply (missing_attachment_raises MPhoto (constant_world [] [] TransportError)
           empty_message).
  reflexivity.
Defined.


(** The start command posts nothing, downloads nothing and replies with the
    greeting; and no handler registered by [main] posts more than once,
    calls [reply_text] more than once or downloads more than one file. *)
Theorem registered_at_most_once (w : World) (m : Message) :
  (posts (trace (registered RStart w m)) = [] /\
   downloads (trace (registered RStart w m)) = [] /\
   replies (trace (registered RStart w m)) =
     [JStr ("Hello! I am your multimodal Gemini 2.5-flash bot." ++ Py.LF ++
            "Send text, images, audio, video, or PDFs.")]) /\
  forall r,
    (List.length (posts (trace (registered r w m))) <= 1)%nat /\
    (List.length (replies (trace (registered r w m))) <= 1)%nat /\
    (List.length (downloads (trace (registered r w m))) <= 1)%nat.
Proof.
  split; [repeat split; reflexivity|].
  intros [|h]; cbn [registered]; [cbn; lia|].
  destruct (handler_run_cases h w m)
    as [(_ & H)|[(id & e & H & _)|[(id & bytes & e & H & _)|
        [(doc & _ & H)|(pre & parts & logs & v & H & Hpre)]]]];
    try (rewrite H; cbn; lia).
  rewrite (completes_posts _ _ _ _ _ _ _ H).
  destruct (completes_replies _ _ _ _ _ _ _ H) as [-> _].
  rewrite (completes_downloads _ _ _ _ _ _ _ H).
  destruct Hpre as [->|(id & bytes & -> & _)]; cbn; lia.
Qed.

(** ** The reply of a handler, by what the endpoint answered *)

Lemma handler_reply_of_complete (h : Modality) (w : World) (m : Message)
  (parts : list value) (logs : list event) (v : value) :
  In (envelope parts) (posts (trace (handler h w m))) ->
  complete w parts (error_log h) (error_reply h) =
    (EvPost GEMINI_URL (envelope parts) :: logs, OK v) ->
  replies (trace (handler h w m)) = [v] /\ outcome (handler h w m) = OK tt.
Proof.
  intros Hin Hc.
  destruct (handler_cases h w m) as [Hnone|(pre & parts' & logs' & v' & H & _)].
  - rewrite Hnone in Hin. destruct Hin.
  - rewrite (completes_posts _ _ _ _ _ _ _ H) in Hin.
    destruct Hin as [Heq|[]]. apply envelope_inj in Heq. subst parts'.
    destruct (completes_replies _ _ _ _ _ _ _ H) as [Hr Hok].
    destruct H as (_ & Hc' & _). rewrite Hc in Hc'. inversion Hc'; subst.
    now split.
Qed.

(** The endpoint answers with a status that is not 4xx or 5xx and a body of
    the expected shape: the handler calls [reply_text] once, with the value
    of the text field as it is. *)
Theorem handler_relays_reply (h : Modality) (w : World) (m : Message)
  (parts : list value) (r : Response) (data v : value) :
  In (envelope parts) (posts (trace (handler h w m))) ->
  http_post w (envelope parts) = Responded r ->
  is_error_status (status_code r) = false ->
  json_body r = Some data ->
  expected_text data = Some v ->
  replies (trace (handler h w m)) = [v].
Proof.
  intros Hin Hpost Hstatus Hbody Hshape.
  apply (handler_reply_of_complete h w m parts []); [exact Hin|].
  rewrite complete_eq, call_gemini_eq. cbv zeta.
  now rewrite Hpost, Hstatus, Hbody, (extract_text_complete _ _ Hshape).
Qed.

Lemma handler_relays_reply_witness :
  replies (trace (handler MPhoto
                    (constant_world sample_bytes []
                       (answer 200 (Some (reply_body (JStr "A cat.")))))
                    (sample_message MPhoto))) = [JStr "A cat."].
Proof.
  apply (handler_relays_reply MPhoto
           (constant_world sample_bytes []
              (answer 200 (Some (reply_body (JStr "A cat.")))))
           (sample_message MPhoto)
           [dict [("text", JStr "Please analyze this image:")];
            media_part "image" "image/jpeg" "TWFu"]
           {| status_code := 200;
              json_body := Some (reply_body (JStr "A cat.")) |}
           (reply_body (JStr "A cat.")) (JStr "A cat.")).
  - vm_compute. left. reflexivity.
  - reflexivity.
  - reflexivity.
  - reflexivity.
  - reflexivity.
Defined.

(** The endpoint answers with a JSON body that lacks the text field: the
    handler replies with the fallback string of [call_gemini], not with its
    own error string, and ends normally. *)
Theorem handler_fallback_reply (h : Modality) (w : World) (m : Message)
  (parts : list value) (r : Response) (data : value) :
  In (envelope parts) (posts (trace (handler h w m))) ->
  http_post w (envelope parts) = Responded r ->
  is_error_status (status_code r) = false ->
  json_body r = Some data ->
  expected_text data = None ->
  replies (trace (handler h w m)) = [JStr "Gemini returned an unexpected response."] /\
  outcome (handler h w m) = OK tt.
Proof.
  intros Hin Hpost Hstatus Hbody Hshape.
  destruct (extract_text_raises data Hshape) as [e He].
  apply (handler_reply_of_complete h w m parts
           [EvLog "Unexpected response format: " e]); [exact Hin|].
  rewrite complete_eq, call_gemini_eq. cbv zeta.
  now rewrite Hpost, Hstatus, Hbody, He.
Qed.

Lemma handler_fallback_reply_witness :
  replies (trace (handler MText
                    (constant_world [] [] (answer 200 (Some (dict []))))
                    (text_message "hello"))) =
    [JStr "Gemini returned an unexpected response."] /\
  outcome (handler MText
             (constant_world [] [] (answer 200 (Some (dict []))))
             (text_message "hello")) = OK tt.
Proof.
  apply (handler_fallback_reply MText
           (constant_world [] [] (answer 200 (Some (dict []))))
           (text_message "hello")
           [dict [("text", JStr "hello")]]
           {| status_code := 200; json_body := Some (dict []) |}
           (dict [])).
  - vm_compute. left. reflexivity.
  - reflexivity.
  - reflexivity.
  - reflexivity.
  - reflexivity.
Defined.

(** The endpoint answers with a status that is not 4xx or 5xx and a body
    that is not JSON: the exception of [resp.json()] is caught by the handler,
    which replies with the error string of its modality. *)
Theorem handler_non_json_reply (h : Modality) (w : World) (m : Message)
  (parts : list value) (r : Response) :
  In (envelope parts) (posts (trace (handler h w m))) ->
  http_post w (envelope parts) = Responded r ->
  is_error_status (status_code r) = false ->
  json_body r = None ->
  replies (trace (handler h w m)) = [JStr (error_reply h)] /\
  outcome (handler h w m) = OK tt.
Proof.
  intros Hin Hpost Hstatus Hbody.
  apply (handler_reply_of_complete h w m parts
           [EvLog (error_log h) JSONDecodeError]); [exact Hin|].
  rewrite complete_eq, call_gemini_eq. cbv zeta.
  now rewrite Hpost, Hstatus, Hbody.
Qed.

Lemma handler_non_json_reply_witness :
  replies (trace (handler MVideo
                    (constant_world sample_bytes [] (answer 200 None))
                    (sample_message MVideo))) = [JStr "Error processing video."] /\
  outcome (handler MVideo
             (constant_world sample_bytes [] (answer 200 None))
             (sample_message MVideo)) = OK tt.
Proof.
  apply (handler_non_json_reply MVideo
           (constant_world sample_bytes [] (answer 200 None))
           (sample_message MVideo)
           [dict [("text", JStr "Please analyze this video:")];
            media_part "video" "video/mp4" "TWFu"]
           {| status_code := 200; json_body := None |}).
  - vm_compute. left. reflexivity.
  - reflexivity.
  - reflexivity.
  - reflexivity.
Defined.

(** ** What each handler sends *)

(** The audio handler labels the audio with the MIME type the attachment
    reports, when it reports one that is not empty. *)
Theorem audio_handler_reported_mime (w : World) (m : Message)
  (audio : Attachment) (bytes : list byte) (mime : string) :
  or_else (effective_attachment m) (voice m) = Some audio ->
  download w (file_id audio) = OK bytes ->
  mime_type audio = Some mime ->
  mime <> "" ->
  posts (trace (audio_handler w m)) =
    [envelope [dict [("text", JStr "Please transcribe or analyze this audio:")];
               media_part "audio" mime (b64encode bytes)]].
Proof.
  intros Ha Hd Hmime Hne.
  rewrite (audio_handler_mime w m audio bytes Ha Hd), Hmime.
  cbn [Py.str_or]. destruct (String.eqb_spec mime ""); [contradiction|reflexivity].
Qed.

Lemma audio_handler_reported_mime_witness :
  posts (trace (audio_handler
                  (constant_world sample_bytes [] (answer 200 None))
                  (sample_message MAudio))) =
    [envelope [dict [("text", JStr "Please transcribe or analyze this audio:")];
               media_part "audio" "audio/mpeg" (b64encode sample_bytes)]].
Proof.
  apply (audio_handler_reported_mime
           (constant_world sample_bytes [] (answer 200 None))
           (sample_message MAudio)
           {| file_id := "a"; mime_type := Some "audio/mpeg" |}
           sample_bytes "audio/mpeg").
  - reflexivity.
  - reflexivity.
  - reflexivity.
  - discriminate.
Defined.

(** The audio handler labels the audio [audio/ogg] when the attachment has
    no MIME type, and also when its MIME type is the empty string. *)
Theorem audio_handler_default_mime (w : World) (m : Message)
  (audio : Attachment) (bytes : list byte) :
  or_else (effective_attachment m) (voice m) = Some audio ->
  download w (file_id audio) = OK bytes ->
  mime_type audio = None \/ mime_type audio = Some "" ->
  posts (trace (audio_handler w m)) =
    [envelope [dict [("text", JStr "Please transcribe or analyze this audio:")];
               media_part "audio" "audio/ogg" (b64encode bytes)]].
Proof.
  intros Ha Hd Hmime.
  rewrite (audio_handler_mime w m audio bytes Ha Hd).
  destruct Hmime as [-> | ->]; reflexivity.
Qed.

Lemma audio_handler_default_mime_witness :
  posts (trace (audio_handler
                  (constant_world sample_bytes [] (answer 200 None))
                  (voice_message {| file_id := "n"; mime_type := None |}))) =
    [envelope [dict [("text", JStr "Please transcribe or analyze this audio:")];
               media_part "audio" "audio/ogg" (b64encode sample_bytes)]].
Proof.
  apply (audio_handler_default_mime
           (constant_world sample_bytes [] (answer 200 None))
           (voice_message {| file_id := "n"; mime_type := None |})
           {| file_id := "n"; mime_type := None |}
           sample_bytes).
  - reflexivity.
  - reflexivity.
  - left. reflexivity.
Defined.

(** The audio handler takes the effective attachment of the message when
    there is one, whatever the voice field holds, and the voice note
    otherwise; it is the file of that attachment it downloads. *)
Theorem audio_handler_attachment_choice (w : World) (m : Message) :
  downloads (trace (audio_handler w m)) =
    match effective_attachment m, voice m with
    | Some a, _ => [file_id a]
    | None, Some v => [file_id v]
    | None, None => []
    end.
Proof.
  assert (H : forall a, or_else (effective_attachment m) (voice m) = Some a ->
                        downloads (trace (audio_handler w m)) = [file_id a]).
  { intros a Ha.
    destruct (download w (file_id a)) as [bytes|e] eqn:Hd.
    - destruct (audio_handler_run w m a bytes Ha Hd) as (logs & v & Hrun).
      now rewrite (completes_downloads _ _ _ _ _ _ _ Hrun).
    - unfold audio_handler. rewrite Ha, fetch_eq, Hd. reflexivity. }
  destruct (effective_attachment m) as [a|] eqn:He.
  - now apply H.
  - destruct (voice m) as [v|] eqn:Hv.
    + now apply H.
    + unfold audio_handler. rewrite He, Hv. reflexivity.
Qed.

(** The photo handler sends its instruction first, then one image part that
    is labelled [image/jpeg] and holds the base64 text of the bytes of the
    last size of the list. *)
Theorem photo_handler_parts (w : World) (m : Message) (d : PhotoSize)
  (bytes : list byte) :
  photo m <> [] ->
  download w (photo_file_id (last (photo m) d)) = OK bytes ->
  posts (trace (photo_handler w m)) =
    [envelope [dict [("text", JStr "Please analyze this image:")];
               media_part "image" "image/jpeg" (b64encode bytes)]].
Proof.
  intros Hne Hd.
  destruct (photo_handler_run w m _ bytes (list_getitem_last _ d Hne) Hd)
    as (logs & v & H).
  exact (completes_posts _ _ _ _ _ _ _ H).
Qed.

Lemma photo_handler_parts_witness :
  posts (trace (photo_handler
                  (constant_world sample_bytes [] (answer 200 None))
                  (sample_message MPhoto))) =
    [envelope [dict [("text", JStr "Please analyze this image:")];
               media_part "image" "image/jpeg" (b64encode sample_bytes)]].
Proof.
  apply (photo_handler_parts
           (constant_world sample_bytes [] (answer 200 None))
           (sample_message MPhoto)
           {| photo_file_id := ""; width := 0; height := 0 |}
           sample_bytes).
  - simpl. discriminate.
  - reflexivity.
Defined.

Lemma video_handler_mime_witness :
  posts (trace (video_handler
                  (constant_world sample_bytes [] (answer 200 None))
                  (video_message {| file_id := "w"; mime_type := Some "video/webm" |}))) =
    [envelope [dict [("text", JStr "Please analyze this video:")];
               media_part "video" "video/mp4" (b64encode sample_bytes)]].
Proof.
  apply (video_handler_mime
           (constant_world sample_bytes [] (answer 200 None))
           (video_message {| file_id := "w"; mime_type := Some "video/webm" |})
           {| file_id := "w"; mime_type := Some "video/webm" |}
           sample_bytes);
    reflexivity.
Defined.

(** ** The prompt of a PDF *)

Lemma str_or_empty (page : option string) :
  Py.str_or page "" = match page with Some s => s | None => "" end.
Proof.
  destruct page as [s|]; [|reflexivity]. cbn.
  now destruct (String.eqb_spec s "") as [->|].
Qed.

Lemma string_app_assoc (a b c : string) : (a ++ b) ++ c = a ++ (b ++ c).
Proof. induction a as [|x a IH]; cbn; [reflexivity|now rewrite IH]. Qed.

(** For any PDF, with any number of pages, the document handler sends one
    text part: the heading, the texts of the pages joined by line feeds (a
    page without text counting as empty), two line feeds and the request to
    summarize. *)
Theorem document_handler_pdf_prompt (w : World) (m : Message) (doc : Attachment)
  (bytes : list byte) (pages : list (option string)) :
  document m = Some doc ->
  mime_type doc = Some "application/pdf" ->
  download w (file_id doc) = OK bytes ->
  pdf_pages w bytes = OK pages ->
  posts (trace (document_handler w m)) =
    [envelope
       [dict [("text",
               JStr ("Extracted text from PDF:" ++ Py.LF ++
                     Py.join Py.LF
                       (map (fun page => match page with Some s => s | None => "" end)
                            pages) ++
                     Py.LF ++ Py.LF ++ "Please summarize."))]]].
Proof.
  intros Hdoc Hmime Hd Hpages.
  assert (Hpdf : is_pdf (mime_type doc) = true) by now rewrite Hmime.
  destruct (document_handler_run w m doc bytes pages Hdoc Hpdf Hd Hpages)
    as (logs & v & H).
  rewrite (completes_posts _ _ _ _ _ _ _ H). unfold pdf_prompt.
  rewrite (map_ext _ _ str_or_empty). reflexivity.
Qed.

Lemma document_handler_pdf_prompt_witness :
  posts (trace (document_handler
                  (constant_world sample_bytes [] (answer 200 None))
                  (sample_message MDocument))) =
    [envelope
       [dict [("text",
               JStr ("Extracted text from PDF:" ++ Py.LF ++
                     Py.join Py.LF
                       (map (fun page => match page with Some s => s | None => "" end)
                            []) ++
                     Py.LF ++ Py.LF ++ "Please summarize."))]]].
Proof.
  apply (document_handler_pdf_prompt
           (constant_world sample_bytes [] (answer 200 None))
           (sample_message MDocument)
           {| file_id := "d"; mime_type := Some "application/pdf" |}
           sample_bytes []);
    reflexivity.
Defined.

(** A page whose text cannot be extracted and a page whose text is empty
    give the same prompt. *)
Theorem pdf_prompt_none_as_empty (pages : list (option string)) :
  pdf_prompt (map (fun page => match page with
                               | Some s => Some s
                               | None => Some ""
                               end) pages) =
  pdf_prompt pages.
Proof.
  unfold pdf_prompt. rewrite map_map.
  rewrite (map_ext _ (fun page => Py.str_or page "")); [reflexivity|].
  now intros [s|].
Qed.

(** Joining two non-empty runs of pages puts exactly one separator between
    the last page of the first and the first page of the second. *)
Theorem join_app (sep : string) (l1 l2 : list string) :
  l1 <> [] -> l2 <> [] ->
  Py.join sep (l1 ++ l2) = Py.join sep l1 ++ sep ++ Py.join sep l2.
Proof.
  intros H1 H2. induction l1 as [|a l1 IH]; [contradiction|].
  destruct l1 as [|b l1].
  - destruct l2; [contradiction|reflexivity].
  - change (Py.join sep ((a :: b :: l1) ++ l2))
      with (a ++ sep ++ Py.join sep ((b :: l1) ++ l2)).
    rewrite IH by discriminate.
    change (Py.join sep (a :: b :: l1)) with (a ++ sep ++ Py.join sep (b :: l1)).
    now rewrite !string_app_assoc.
Qed.

Lemma join_app_witness :
  Py.join Py.LF (["a"; "b"] ++ ["c"]) =
  Py.join Py.LF ["a"; "b"] ++ Py.LF ++ Py.join Py.LF ["c"].
Proof.
  apply (join_app Py.LF ["a"; "b"] ["c"]); discriminate.
Defined.

(** ** The base64 text of a download *)

(** The base64 text of [n] bytes has [4 * ceil (n / 3)] characters. *)
Theorem b64encode_length (bs : list byte) :
  String.length (b64encode bs) = (4 * ((List.length bs + 2) / 3))%nat.
Proof.
  unfold b64encode.
  induction bs as [|a|a b|a b c rest IH] using Base64Facts.list_ind3;
    try reflexivity.
  change (String.length (Base64.encode (a :: b :: c :: rest)))
    with (4 + String.length (Base64.encode rest))%nat.
  rewrite IH. cbn [List.length].
  replace (S (S (S (List.length rest))) + 2)%nat
    with ((List.length rest + 2) + 1 * 3)%nat by lia.
  rewrite Nat.div_add by discriminate. lia.
Qed.

Lemma b64_char_of (n : N) :
  (n < 64)%N ->
  is_b64_char (Base64.char_of n) = true /\
  (nat_of_ascii (Base64.char_of n) < 128)%nat.
Proof.
  intros Hn.
  assert (H : below 64 (fun n =>
            is_b64_char (Base64.char_of n) &&
            (nat_of_ascii (Base64.char_of n) <? 128)%nat) = true)
    by (vm_compute; reflexivity).
  apply Base64Facts.below_spec with (n := n) in H; [|exact Hn].
  apply andb_true_iff in H as [H1 H2].
  split; [exact H1|now apply Nat.ltb_lt].
Qed.

(** The base64 text is made of the 64 characters of the alphabet and of [=],
    all of them ASCII: reading it as UTF-8, as the handlers do, cannot fail
    and changes nothing. *)
Theorem b64encode_chars (bs : list byte) :
  Forall (fun c => is_b64_char c = true /\ (nat_of_ascii c < 128)%nat)
         (list_ascii_of_string (b64encode bs)).
Proof.
  unfold b64encode.
  assert (Hpad : is_b64_char Base64.pad = true /\
                 (nat_of_ascii Base64.pad < 128)%nat)
    by (split; [reflexivity|vm_compute; lia]).
  induction bs as [|a|a b|a b c rest IH] using Base64Facts.list_ind3.
  - constructor.
  - pose proof (Base64Facts.to_N_lt a) as Ha.
    destruct (Base64Facts.sextets_lt _ _ Ha Ha) as (L0 & _ & _ & _ & L1 & _).
    cbn [Base64.encode list_ascii_of_string].
    repeat (apply Forall_cons;
            [(apply b64_char_of; assumption) || exact Hpad|]).
    apply Forall_nil.
  - pose proof (Base64Facts.to_N_lt a) as Ha.
    pose proof (Base64Facts.to_N_lt b) as Hb.
    destruct (Base64Facts.sextets_lt _ _ Ha Hb) as (L0 & L1 & _).
    destruct (Base64Facts.sextets_lt _ _ Hb Hb) as (_ & _ & _ & _ & _ & L2).
    cbn [Base64.encode list_ascii_of_string].
    repeat (apply Forall_cons;
            [(apply b64_char_of; assumption) || exact Hpad|]).
    apply Forall_nil.
  - pose proof (Base64Facts.to_N_lt a) as Ha.
    pose proof (Base64Facts.to_N_lt b) as Hb.
    pose proof (Base64Facts.to_N_lt c) as Hc.
    destruct (Base64Facts.sextets_lt _ _ Ha Hb) as (L0 & L1 & _).
    destruct (Base64Facts.sextets_lt _ _ Hb Hc) as (_ & _ & L2 & _).
    destruct (Base64Facts.sextets_lt _ _ Hc Hc) as (_ & _ & _ & L3 & _).
    cbn [Base64.encode list_ascii_of_string].
    do 4 (apply Forall_cons; [apply b64_char_of; assumption|]).
    exact IH.
Qed.

(** Two downloads with the same base64 text are the same bytes. *)
Theorem b64encode_injective (bs bs' : list byte) :
  b64encode bs = b64encode bs' -> bs = bs'.
Proof.
  unfold b64encode. intros H.
  pose proof (Base64Facts.decode_encode bs) as Hd.
  rewrite H, Base64Facts.decode_encode in Hd. congruence.
Qed.

Lemma b64encode_injective_witness : sample_bytes = sample_bytes.
Proof.
  apply (b64encode_injective sample_bytes sample_bytes). reflexivity.
Defined.

(** After a whole number of three-byte groups the encoding starts afresh:
    the text of a concatenation is the concatenation of the texts. *)
Theorem b64encode_app (k : nat) (bs bs' : list byte) :
  List.length bs = (3 * k)%nat ->
  b64encode (bs ++ bs') = b64encode bs ++ b64encode bs'.
Proof.
  unfold b64encode. revert bs.
  induction k as [|k IH]; intros bs Hlen.
  - destruct bs; [reflexivity|cbn in Hlen; lia].
  - destruct bs as [|a [|b [|c rest]]]; cbn in Hlen; try lia.
    change (Base64.encode ((a :: b :: c :: rest) ++ bs'))
      with (String (Base64.char_of (sextet0 (Byte.to_N a)))
           (String (Base64.char_of (sextet1 (Byte.to_N a) (Byte.to_N b)))
           (String (Base64.char_of (sextet2 (Byte.to_N b) (Byte.to_N c)))
           (String (Base64.char_of (sextet3 (Byte.to_N c)))
                   (Base64.encode (rest ++ bs')))))).
    rewrite IH by lia. reflexivity.
Qed.

Lemma b64encode_app_witness :
  b64encode (sample_bytes ++ [x66]) = b64encode sample_bytes ++ b64encode [x66].
Proof.
  apply (b64encode_app 1 sample_bytes [x66]). reflexivity.
Defined.
